(** * wasm-sudoku: the grid controller of [www/src/index.ts]

    A shallow embedding of the browser front end of the puzzle: the 81
    cell widgets, the shared cell buffer, the set of clue positions, the
    input handler [updateCell], the full refresh [refreshGrid] and the
    three actions (generate, verify, solve), followed by the properties
    of the synchronisation between widgets, buffer and clue set. *)

From Stdlib Require Import ZArith Ascii String DecimalString DecimalPos.
From stdpp Require Import base decidable list gmap sets strings.

Local Open Scope Z_scope.

(** * JavaScript values used by the controller *)

Module JS.

(** A JavaScript string is a sequence of code units; the controller only
    inspects lengths, single code units and decimal digits, so [string]
    (code units below 256) is used. *)

Definition str_length (s : string) : Z := Z.of_nat (String.length s).

(** [String.prototype.substr(start, length)]: a negative [start] counts
    from the end, both ends are clamped to the string. *)
Definition substr (s : string) (start len : Z) : string :=
  let size := str_length s in
  let intStart := if start <? 0 then Z.max (size + start) 0 else Z.min start size in
  let intLength := Z.min (Z.max len 0) size in
  let intEnd := Z.min (intStart + intLength) size in
  String.substring (Z.to_nat intStart) (Z.to_nat (intEnd - intStart)) s.

(** A Number that is either an integer or [NaN] ([None]). *)
Definition Number := option Z.

Definition NaN : Number := None.

Definition Number_isInteger (x : Number) : bool :=
  match x with Some _ => true | None => false end.

(** [x < y] and [x > y] on Numbers: any comparison with [NaN] is false. *)
Definition lt (x : Number) (y : Z) : bool :=
  match x with Some a => a <? y | None => false end.

Definition gt (x : Number) (y : Z) : bool :=
  match x with Some a => a >? y | None => false end.

(** White space and line terminators skipped by [parseInt] (those below
    code unit 256: TAB, LF, VT, FF, CR, SP, NBSP). *)
Definition is_white_space (c : ascii) : bool :=
  match N_of_ascii c with
  | 9 | 10 | 11 | 12 | 13 | 32 | 160 => true
  | _ => false
  end%N.

Fixpoint trim_start (s : string) : string :=
  match s with
  | String c s' => if is_white_space c then trim_start s' else s
  | EmptyString => s
  end.

(** The value of a code unit as a digit of the given radix (10 or 16). *)
Definition digit_value (radix : Z) (c : ascii) : option Z :=
  let n := Z.of_N (N_of_ascii c) in
  let v :=
    if (48 <=? n) && (n <=? 57) then Some (n - 48)
    else if (97 <=? n) && (n <=? 122) then Some (n - 97 + 10)
    else if (65 <=? n) && (n <=? 90) then Some (n - 65 + 10)
    else None in
  match v with
  | Some d => if d <? radix then Some d else None
  | None => None
  end.

(** The longest prefix of digits, accumulated most significant first;
    [None] when there is no digit at all. *)
Fixpoint parse_digits (radix : Z) (acc : option Z) (s : string) : option Z :=
  match s with
  | String c s' =>
      match digit_value radix c with
      | Some d => parse_digits radix (Some (radix * default 0 acc + d)) s'
      | None => acc
      end
  | EmptyString => acc
  end.

(** [parseInt(string)] without a radix argument: leading white space is
    skipped, a sign is read, a [0x] prefix selects radix 16, and the
    longest run of digits is converted; no digit gives [NaN]. *)
Definition parseInt (s : string) : Number :=
  let s1 := trim_start s in
  let '(sign, s2) :=
    match s1 with
    | String "-" r => (-1, r)
    | String "+" r => (1, r)
    | _ => (1, s1)
    end in
  let '(radix, s3) :=
    match s2 with
    | String "0" (String "x" r) | String "0" (String "X" r) => (16, r)
    | _ => (10, s2)
    end in
  match parse_digits radix None s3 with
  | Some v => Some (sign * v)
  | None => NaN
  end.

(** [String(n)] on a Number. *)
Definition String_of (x : Number) : string :=
  match x with
  | Some z => NilZero.string_of_int (Z.to_int z)
  | None => "NaN"
  end.

(** [Number(s)] on a string, on the domain the controller uses it on:
    the empty string is 0 and a string of decimal digits is its value.
    Every other string is mapped to [NaN] here (signed, fractional,
    exponent and prefixed literals never reach these calls: the
    arguments are results of [String_of] on a non-negative integer). *)
Definition Number_of (s : string) : Number :=
  match NilEmpty.uint_of_string s with
  | Some d => Some (Z.of_N (N.of_uint d))
  | None => NaN
  end.

(** [Number(undefined)] is [NaN]. *)
Definition Number_of_opt (s : option string) : Number :=
  match s with Some s' => Number_of s' | None => NaN end.

(** [ToUint8]: the conversion applied to a value stored in a
    [Uint8Array]; [NaN] is stored as 0. *)
Definition ToUint8 (x : Number) : Z :=
  match x with Some z => z mod 256 | None => 0 end.

(** Reading [a[i]] on a [Uint8Array]: [undefined] ([None]) when [i] is
    not an index of the array. *)
Definition typed_get (a : list Z) (i : Number) : option Z :=
  match i with
  | Some z => if 0 <=? z then a !! Z.to_nat z else None
  | None => None
  end.

(** Writing [a[i] = v] on a [Uint8Array]: ignored when [i] is not an
    index of the array (the array never grows). *)
Definition typed_set (a : list Z) (i : Number) (v : Number) : list Z :=
  match i with
  | Some z => if 0 <=? z then <[Z.to_nat z := ToUint8 v]> a else a
  | None => a
  end.

End JS.

(** * The document *)

(** The handler stored in a widget's [oninput] property. *)
Inductive InputHandler := updateCell_handler.

(** The handlers stored in the buttons' [onclick] property. *)
Inductive ClickHandler :=
  | generatePuzzle_handler
  | verifyPuzzle_handler
  | solvePuzzle_handler.

(** A cell widget: an [<input>] element with the properties the
    controller reads or writes. [value] is the raw text of the control
    and [selectionStart] the caret (for a text control it is never
    [null]). *)
Record HTMLInputElement := mkInput {
  classList : list string;
  type_ : string;
  inputMode : string;
  dataset_index : option string;
  oninput : option InputHandler;
  value : string;
  selectionStart : nat;
  readOnly : bool
}.

(** [document.createElement("input")]. *)
Definition createElement_input : HTMLInputElement :=
  {| classList := []; type_ := "text"; inputMode := ""; dataset_index := None;
     oninput := None; value := ""; selectionStart := 0; readOnly := false |}.

(** [DOMTokenList.add] and [DOMTokenList.remove]: a class list is an
    ordered set of tokens. *)
Definition token_add (t : string) (l : list string) : list string :=
  if decide (t ∈ l) then l else l ++ [t].

Definition token_remove (t : string) (l : list string) : list string :=
  filter (λ x, x ≠ t) l.

Definition classList_add (t : string) (e : HTMLInputElement) : HTMLInputElement :=
  mkInput (token_add t (classList e)) (type_ e) (inputMode e) (dataset_index e)
          (oninput e) (value e) (selectionStart e) (readOnly e).

Definition classList_remove (t : string) (e : HTMLInputElement) : HTMLInputElement :=
  mkInput (token_remove t (classList e)) (type_ e) (inputMode e) (dataset_index e)
          (oninput e) (value e) (selectionStart e) (readOnly e).

Definition set_type (t : string) (e : HTMLInputElement) : HTMLInputElement :=
  mkInput (classList e) t (inputMode e) (dataset_index e)
          (oninput e) (value e) (selectionStart e) (readOnly e).

Definition set_inputMode (m : string) (e : HTMLInputElement) : HTMLInputElement :=
  mkInput (classList e) (type_ e) m (dataset_index e)
          (oninput e) (value e) (selectionStart e) (readOnly e).

Definition set_dataset_index (i : string) (e : HTMLInputElement) : HTMLInputElement :=
  mkInput (classList e) (type_ e) (inputMode e) (Some i)
          (oninput e) (value e) (selectionStart e) (readOnly e).

Definition set_oninput (h : InputHandler) (e : HTMLInputElement) : HTMLInputElement :=
  mkInput (classList e) (type_ e) (inputMode e) (dataset_index e)
          (Some h) (value e) (selectionStart e) (readOnly e).

(** [input.value = v] from script: the text is replaced and, when it
    changed, the caret moves to its end. (The values the controller
    assigns hold no line break, so the sanitisation of a text control
    leaves them as they are.) *)
Definition set_value (v : string) (e : HTMLInputElement) : HTMLInputElement :=
  mkInput (classList e) (type_ e) (inputMode e) (dataset_index e) (oninput e)
          v (if decide (v = value e) then selectionStart e else String.length v)
          (readOnly e).

Definition set_readOnly (b : bool) (e : HTMLInputElement) : HTMLInputElement :=
  mkInput (classList e) (type_ e) (inputMode e) (dataset_index e)
          (oninput e) (value e) (selectionStart e) b.

(** The user's edit as the browser applies it, before the [input] event
    is dispatched: the raw text and the caret are whatever the edit left. *)
Definition set_raw (raw : string) (cursor : nat) (e : HTMLInputElement) : HTMLInputElement :=
  mkInput (classList e) (type_ e) (inputMode e) (dataset_index e)
          (oninput e) raw cursor (readOnly e).

(** The [#notification] element: the text of its first child and its
    class list ([className = ""] empties the list). *)
Record NotificationDiv := mkNotification {
  firstChild_textContent : string;
  notification_classList : list string
}.

(** The callback given to [setTimeout] in [verifyPuzzle]. *)
Inductive TimerCallback := clear_notification_className.

(** Modelled from the spec: the puzzle engine (the wasm module, which is
    not part of these sources), through the operations of section 6.
    [Puzzle] is the engine's private state; the 81-byte buffer it shares
    with the page is passed to and returned from the operations that
    rewrite it, and [verify] only reads it. *)
Class PuzzleEngine (Puzzle : Type) := {
  Puzzle_new : Puzzle * list Z;
  Puzzle_generate : Puzzle → list Z → Puzzle * list Z;
  Puzzle_verify : Puzzle → list Z → bool;
  Puzzle_solve : Puzzle → list Z → Puzzle * list Z
}.

(** The module-level state of [index.ts] together with the part of the
    document it touches. [cells] is the [Uint8Array] view on the engine's
    buffer, [grid] the children of [#grid] in document order. *)
Record Page (Puzzle : Type) := mkPage {
  puzzle : Puzzle;
  cells : list Z;
  clueIndices : gset nat;
  grid : list HTMLInputElement;
  notificationDiv : NotificationDiv;
  timers : list (TimerCallback * Z);
  generateButton_onclick : option ClickHandler;
  verifyButton_onclick : option ClickHandler;
  solveButton_onclick : option ClickHandler
}.

Arguments mkPage {Puzzle}.
Arguments puzzle {Puzzle}.
Arguments cells {Puzzle}.
Arguments clueIndices {Puzzle}.
Arguments grid {Puzzle}.
Arguments notificationDiv {Puzzle}.
Arguments timers {Puzzle}.
Arguments generateButton_onclick {Puzzle}.
Arguments verifyButton_onclick {Puzzle}.
Arguments solveButton_onclick {Puzzle}.

(** * The controller *)

Section Controller.

Context {Puzzle : Type} `{!PuzzleEngine Puzzle}.

Definition with_cells (c : list Z) (s : Page Puzzle) : Page Puzzle :=
  mkPage (puzzle s) c (clueIndices s) (grid s) (notificationDiv s) (timers s)
         (generateButton_onclick s) (verifyButton_onclick s) (solveButton_onclick s).

Definition with_engine (pc : Puzzle * list Z) (s : Page Puzzle) : Page Puzzle :=
  mkPage pc.1 pc.2 (clueIndices s) (grid s) (notificationDiv s) (timers s)
         (generateButton_onclick s) (verifyButton_onclick s) (solveButton_onclick s).

Definition with_clueIndices (c : gset nat) (s : Page Puzzle) : Page Puzzle :=
  mkPage (puzzle s) (cells s) c (grid s) (notificationDiv s) (timers s)
         (generateButton_onclick s) (verifyButton_onclick s) (solveButton_onclick s).

Definition with_grid (g : list HTMLInputElement) (s : Page Puzzle) : Page Puzzle :=
  mkPage (puzzle s) (cells s) (clueIndices s) g (notificationDiv s) (timers s)
         (generateButton_onclick s) (verifyButton_onclick s) (solveButton_onclick s).

Definition with_notification (n : NotificationDiv) (s : Page Puzzle) : Page Puzzle :=
  mkPage (puzzle s) (cells s) (clueIndices s) (grid s) n (timers s)
         (generateButton_onclick s) (verifyButton_onclick s) (solveButton_onclick s).

(** [setTimeout(callback, delay)]: the callback is queued, nothing runs. *)
Definition setTimeout (cb : TimerCallback) (delay : Z) (s : Page Puzzle) : Page Puzzle :=
  mkPage (puzzle s) (cells s) (clueIndices s) (grid s) (notificationDiv s)
         (timers s ++ [(cb, delay)])
         (generateButton_onclick s) (verifyButton_onclick s) (solveButton_onclick s).

(** [document.querySelectorAll(".cell")]: the positions, in document
    order, of the widgets whose class list holds [cell]. *)
Definition has_cell_class (e : HTMLInputElement) : bool :=
  bool_decide ("cell" ∈ classList e).

Fixpoint matching_from (k : nat) (g : list HTMLInputElement) : list nat :=
  match g with
  | [] => []
  | e :: g' =>
      if has_cell_class e then k :: matching_from (S k) g'
      else matching_from (S k) g'
  end.

Definition querySelectorAll_cell (g : list HTMLInputElement) : list nat :=
  matching_from 0 g.

(** [updateCell], lines 24-37. [target] is the position in [grid] of the
    widget the event was dispatched on. *)
Definition updateCell (target : nat) (s : Page Puzzle) : Page Puzzle :=
  match grid s !! target with
  | None => s
  | Some input =>
      let newValue :=
        JS.parseInt (JS.substr (value input) (Z.of_nat (selectionStart input) - 1) 1) in
      if negb (JS.Number_isInteger newValue) || JS.lt newValue 1 || JS.gt newValue 9
      then
        let oldValue :=
          if JS.str_length (value input) =? 1 then ""
          else JS.substr (value input)
                 (JS.str_length (value input) - Z.of_nat (selectionStart input)) 1 in
        let input := set_value oldValue input in
        with_grid (<[target := input]> (grid s)) s
      else
        let input := set_value (JS.String_of newValue) input in
        let s := with_grid (<[target := input]> (grid s)) s in
        with_cells (JS.typed_set (cells s) (JS.Number_of_opt (dataset_index input))
                                 (JS.Number_of (value input))) s
  end.

(** The body of the loop of [refreshGrid] for one widget: [i] is the
    loop counter, [input] the widget [inputs[i]]. *)
Definition refresh_input (c : list Z) (clues : gset nat) (i : nat)
    (input : HTMLInputElement) : HTMLInputElement :=
  let index := JS.Number_of_opt (dataset_index input) in
  let input :=
    set_value (match JS.typed_get c index with
               | Some v => if v =? 0 then "" else JS.String_of (Some v)
               | None => ""
               end) input in
  if decide (i ∈ clues)
  then set_readOnly true (classList_add "clue" input)
  else set_readOnly false (classList_remove "clue" input).

Definition refresh_step (inputs : list nat) (s : Page Puzzle) (i : nat) : Page Puzzle :=
  match inputs !! i with
  | None => s
  | Some node =>
      match grid s !! node with
      | None => s
      | Some input =>
          with_grid (<[node := refresh_input (cells s) (clueIndices s) i input]> (grid s)) s
      end
  end.

(** [refreshGrid], lines 39-56. *)
Definition refreshGrid (s : Page Puzzle) : Page Puzzle :=
  let inputs := querySelectorAll_cell (grid s) in
  foldl (refresh_step inputs) s (seq 0 (length inputs)).

(** The widget built by one turn of the loop of [initializeGrid]. *)
Definition new_cell (i : nat) : HTMLInputElement :=
  let cell := createElement_input in
  let cell := classList_add "cell" cell in
  let cell := set_type "text" cell in
  let cell := set_inputMode "numeric" cell in
  let cell := set_dataset_index (JS.String_of (Some (Z.of_nat i))) cell in
  set_oninput updateCell_handler cell.

Definition appendChild (e : HTMLInputElement) (s : Page Puzzle) : Page Puzzle :=
  with_grid (grid s ++ [e]) s.

(** [initializeGrid], lines 6-22. *)
Definition initializeGrid (s : Page Puzzle) : Page Puzzle :=
  refreshGrid (foldl (λ s i, appendChild (new_cell i) s) s (seq 0 81)).

(** [initializeClues], lines 102-104: the indices of the non-zero cells;
    [null] is [None]. *)
Definition initializeClues (s : Page Puzzle) : Page Puzzle :=
  let mapped : list (option nat) :=
    imap (λ index x, if x =? 0 then None else Some index) (cells s) in
  let filtered := filter (λ x, x ≠ None) mapped in
  with_clueIndices (list_to_set (omap id filtered)) s.

(** [initializeOptions], lines 58-67. *)
Definition initializeOptions (s : Page Puzzle) : Page Puzzle :=
  mkPage (puzzle s) (cells s) (clueIndices s) (grid s) (notificationDiv s) (timers s)
         (Some generatePuzzle_handler) (Some verifyPuzzle_handler)
         (Some solvePuzzle_handler).

(** [generatePuzzle], lines 69-74. *)
Definition generatePuzzle (s : Page Puzzle) : Page Puzzle :=
  let s := with_engine (Puzzle_generate (puzzle s) (cells s)) s in
  let s := initializeClues s in
  refreshGrid s.

(** [verifyPuzzle], lines 76-95. *)
Definition verifyPuzzle (s : Page Puzzle) : Page Puzzle :=
  let result := Puzzle_verify (puzzle s) (cells s) in
  let message := "Oops! There is a mistake somewhere." in
  let type := "error" in
  let '(message, type) :=
    if result
    then (if forallb (λ x, negb (x =? 0)) (cells s)
          then "Congratulations! You solved it." else "Looks good so far!",
          "success")
    else (message, type) in
  let n := mkNotification message (notification_classList (notificationDiv s)) in
  let n := mkNotification (firstChild_textContent n) [] in
  let n := mkNotification (firstChild_textContent n)
             (token_add type (token_add "visible" (notification_classList n))) in
  setTimeout clear_notification_className 2500 (with_notification n s).

(** [solvePuzzle], lines 97-100. *)
Definition solvePuzzle (s : Page Puzzle) : Page Puzzle :=
  let s := with_engine (Puzzle_solve (puzzle s) (cells s)) s in
  refreshGrid s.

(** The timer callback of [verifyPuzzle] when it fires. *)
Definition run_timer (cb : TimerCallback) (s : Page Puzzle) : Page Puzzle :=
  match cb with
  | clear_notification_className =>
      with_notification
        (mkNotification (firstChild_textContent (notificationDiv s)) []) s
  end.

(** Lines 106-115: the page once the module has been evaluated, from the
    document [doc] as the markup declares it. *)
Definition main (doc : Page Puzzle) : Page Puzzle :=
  let s := with_engine Puzzle_new doc in
  let s := initializeClues s in
  let s := initializeGrid s in
  initializeOptions s.

(** ** Events *)

(** An [input] event on widget [target] whose edit left [raw] in the
    text buffer and the caret at [cursor]: the handler in [oninput] runs. *)
Definition input_event (target : nat) (raw : string) (cursor : nat)
    (s : Page Puzzle) : Page Puzzle :=
  match grid s !! target with
  | None => s
  | Some input =>
      let s := with_grid (<[target := set_raw raw cursor input]> (grid s)) s in
      match oninput input with
      | Some updateCell_handler => updateCell target s
      | None => s
      end
  end.

(** A click on a button runs the handler stored in its [onclick]. *)
Definition run_click (h : option ClickHandler) (s : Page Puzzle) : Page Puzzle :=
  match h with
  | Some generatePuzzle_handler => generatePuzzle s
  | Some verifyPuzzle_handler => verifyPuzzle s
  | Some solvePuzzle_handler => solvePuzzle s
  | None => s
  end.

End Controller.

(** ** The user's edits *)

(** What the browser does to the text of a control for one editing
    action: the selected range [edit_start, edit_end) of the displayed
    text is replaced by [edit_text] and the caret is left after it.
    Typing a character on a collapsed caret, typing over a selection,
    Backspace, Delete and paste are all of this form. *)
Record Edit := mkEdit {
  edit_start : nat;
  edit_end : nat;
  edit_text : string
}.

Definition apply_edit (e : Edit) (old : string) : string * nat :=
  let len := String.length old in
  let a := Nat.min (edit_start e) len in
  let b := Nat.max a (Nat.min (edit_end e) len) in
  (String.substring 0 a old +:+ edit_text e +:+ String.substring b (len - b) old,
   (a + String.length (edit_text e))%nat).

(** A keystroke inserts at most one character (none for a deletion). *)
Definition keystroke (e : Edit) : Prop := (String.length (edit_text e) ≤ 1)%nat.

(** The edit applied to widget [target], followed by its [input]
    event; a read-only widget takes no edit. *)
Definition user_edit {Puzzle : Type} `{!PuzzleEngine Puzzle}
    (target : nat) (e : Edit) (s : Page Puzzle) : Page Puzzle :=
  match grid s !! target with
  | None => s
  | Some input =>
      if readOnly input then s
      else
        let '(raw, cursor) := apply_edit e (value input) in
        input_event target raw cursor s
  end.

(** The displayed text of widget [k] ([None] when there is none). *)
Definition displayed {Puzzle : Type} (k : nat) (s : Page Puzzle) : option string :=
  value <$> grid s !! k.

(** The text [String(d)] of an integer [d]. *)
Definition digit_text (d : Z) : string := JS.String_of (Some d).

(** A displayed text that is empty or one digit from 1 to 9. *)
Definition valid_display (t : string) : Prop :=
  t = "" ∨ ∃ d, 1 ≤ d ≤ 9 ∧ t = digit_text d.

(** ** The widgets of the grid *)

#[global] Instance InputHandler_eq_dec : EqDecision InputHandler.
Proof. solve_decision. Defined.

(** Widget [k] as [initializeGrid] binds it: it carries the class
    [cell], the board index [String(k)] in [data-index] and the input
    handler. Neither the handler nor the refresh changes any of these. *)
Definition bound (k : nat) (e : HTMLInputElement) : bool :=
  bool_decide ("cell" ∈ classList e)
  && bool_decide (dataset_index e = Some (JS.String_of (Some (Z.of_nat k))))
  && bool_decide (oninput e = Some updateCell_handler).

Fixpoint bound_from (k : nat) (g : list HTMLInputElement) : bool :=
  match g with
  | [] => true
  | e :: g' => bound k e && bound_from (S k) g'
  end.

(** The grid of the running page: 81 widgets, each bound to its own
    position. *)
Definition grid_ok (g : list HTMLInputElement) : bool :=
  Nat.eqb (length g) 81 && bound_from 0 g.

(** ** The outcome of an edit *)

(** The number the handler reads from the character before the caret. *)
Definition extracted (raw : string) (cursor : nat) : JS.Number :=
  JS.parseInt (JS.substr raw (Z.of_nat cursor - 1) 1).

(** The edit is accepted with digit [d]: the extracted character parses
    to an integer from 1 to 9. It is rejected otherwise. *)
Definition accepts (raw : string) (cursor : nat) (d : Z) : Prop :=
  extracted raw cursor = Some d ∧ 1 ≤ d ≤ 9.

Definition rejects (raw : string) (cursor : nat) : Prop :=
  ∀ d, ¬ accepts raw cursor d.

(** What the handler assigns to the widget on a rejected edit. *)
Definition restored (raw : string) (cursor : nat) : string :=
  if JS.str_length raw =? 1 then ""
  else JS.substr raw (JS.str_length raw - Z.of_nat cursor) 1.

(** A run of [input] events, and a run of user edits, on one widget. *)
Definition run_events {Puzzle : Type} `{!PuzzleEngine Puzzle}
    (k : nat) (es : list (string * nat)) (s : Page Puzzle) : Page Puzzle :=
  foldl (λ s ev, input_event k ev.1 ev.2 s) s es.

Definition run_edits {Puzzle : Type} `{!PuzzleEngine Puzzle}
    (k : nat) (es : list Edit) (s : Page Puzzle) : Page Puzzle :=
  foldl (λ s e, user_edit k e s) s es.

(** ** The running page *)

Inductive Button := generateButton | verifyButton | solveButton.

(** What can happen to the page once the script has run. *)
Inductive Event :=
  | InputEvent (target : nat) (raw : string) (cursor : nat)
  | EditEvent (target : nat) (e : Edit)
  | ClickEvent (b : Button)
  | TimerEvent.

Section Events.

Context {Puzzle : Type} `{!PuzzleEngine Puzzle}.

Definition onclick (b : Button) (s : Page Puzzle) : option ClickHandler :=
  match b with
  | generateButton => generateButton_onclick s
  | verifyButton => verifyButton_onclick s
  | solveButton => solveButton_onclick s
  end.

(** The oldest queued callback runs (all are queued with one delay). *)
Definition fire_timer (s : Page Puzzle) : Page Puzzle :=
  match timers s with
  | [] => s
  | (cb, _) :: rest =>
      run_timer cb
        (mkPage (puzzle s) (cells s) (clueIndices s) (grid s) (notificationDiv s)
                rest (generateButton_onclick s) (verifyButton_onclick s)
                (solveButton_onclick s))
  end.

Definition handle (ev : Event) (s : Page Puzzle) : Page Puzzle :=
  match ev with
  | InputEvent target raw cursor => input_event target raw cursor s
  | EditEvent target e => user_edit target e s
  | ClickEvent b => run_click (onclick b s) s
  | TimerEvent => fire_timer s
  end.

(** The pages a session can be in, from the document [doc]. *)
Inductive reachable (doc : Page Puzzle) : Page Puzzle → Prop :=
  | reachable_main : reachable doc (main doc)
  | reachable_handle s ev : reachable doc s → reachable doc (handle ev s).

End Events.

(** ** Invariants of a session *)

(** A board in the range the engine interface promises: 81 cells, each
    from 0 to 9. *)
Definition board_ok (c : list Z) : bool :=
  Nat.eqb (length c) 81 && forallb (λ v, (0 <=? v) && (v <=? 9)) c.

(** An engine that keeps the shared buffer in that range: its initial
    board is in range, and [generate] and [solve] return a board in
    range when they are given one. *)
Definition engine_ok (Puzzle : Type) `{!PuzzleEngine Puzzle} : Prop :=
  board_ok (Puzzle_new).2 = true
  ∧ (∀ p c, board_ok c = true → board_ok (Puzzle_generate p c).2 = true)
  ∧ (∀ p c, board_ok c = true → board_ok (Puzzle_solve p c).2 = true).

(** The events of a session in which every edit is a keystroke: clicks,
    timers, and edits that insert at most one character. *)
Definition typed_event (ev : Event) : Prop :=
  match ev with
  | InputEvent _ _ _ => False
  | EditEvent _ e => keystroke e
  | ClickEvent _ => True
  | TimerEvent => True
  end.

Inductive typed_session {Puzzle : Type} `{!PuzzleEngine Puzzle}
    (doc : Page Puzzle) : Page Puzzle → Prop :=
  | typed_main : typed_session doc (main doc)
  | typed_handle s ev :
      typed_session doc s → typed_event ev → typed_session doc (handle ev s).

(** Every widget's read-only flag and clue marker agree with the clue
    set. *)
Definition flags_ok {Puzzle : Type} (s : Page Puzzle) : Prop :=
  ∀ (i : nat) w, grid s !! i = Some w →
    readOnly w = bool_decide (i ∈ clueIndices s)
    ∧ ("clue" ∈ classList w ↔ i ∈ clueIndices s).

(** Every widget is empty or shows the digit of its own board cell. *)
Definition shows_board {Puzzle : Type} (s : Page Puzzle) : Prop :=
  ∀ (k : nat) w, grid s !! k = Some w →
    value w = ""
    ∨ ∃ v, cells s !! k = Some v ∧ 1 ≤ v ≤ 9 ∧ value w = JS.String_of (Some v).

(** Every widget at a clue position shows exactly its board cell. *)
Definition clues_synced {Puzzle : Type} (s : Page Puzzle) : Prop :=
  ∀ (i : nat) w, i ∈ clueIndices s → grid s !! i = Some w →
    value w = match cells s !! i with
              | Some v => if v =? 0 then "" else JS.String_of (Some v)
              | None => ""
              end.

(** ** A scripted engine *)

(** An engine with no private state whose [generate] writes the board
    [5,0,...,0], whose [solve] fills every empty cell with 1 and whose
    [verify] accepts boards without a 9. *)
Module Scripted.

#[export] Instance engine : PuzzleEngine unit := {|
  Puzzle_new := (tt, replicate 81 0);
  Puzzle_generate := λ _ _, (tt, 5 :: replicate 80 0);
  Puzzle_verify := λ _ c, forallb (λ x, negb (x =? 9)) c;
  Puzzle_solve := λ _ c, (tt, (λ x, if x =? 0 then 1 else x) <$> c)
|}.

(** The document before the script runs: an empty grid, an empty
    notification element and buttons without handlers. *)
Definition blank : Page unit :=
  mkPage tt [] ∅ [] (mkNotification "" []) [] None None None.

Definition start : Page unit := main blank.

(** The page after a click on Generate, then with "7" typed into the
    empty widget 1, and then after a click on Solve. *)
Definition generated : Page unit := generatePuzzle start.

Definition typed7 : Page unit := user_edit 1 (mkEdit 0 0 "7") generated.

Definition solved : Page unit := solvePuzzle typed7.

(** A session: the script runs, Generate is clicked, and "7" is typed
    into widget 1. *)
Definition session1 : Page unit :=
  handle (EditEvent 1 (mkEdit 0 0 "7"))
    (handle (ClickEvent generateButton) (main blank)).

(** A page whose two widgets carry each other's board index, with the
    board [3, 0] and position 0 as the only clue. *)
Definition swapped : Page unit :=
  mkPage tt [3; 0] {[0%nat]} [new_cell 1; new_cell 0]
         (mkNotification "" []) [] None None None.

(** A page with one widget that has the input handler but no
    [data-index], and one whose index is past the end of the board. *)
Definition unbound : Page unit :=
  mkPage tt [3; 0] ∅
         [set_oninput updateCell_handler (classList_add "cell" createElement_input);
          new_cell 5]
         (mkNotification "" []) [] None None None.

End Scripted.

(** * Properties of the JavaScript primitives *)

Section Primitives.

Lemma length_substring_le (s : string) : ∀ n m : nat,
  (String.length (String.substring n m s) ≤ m)%nat.
Proof.
  induction s as [|c s IH]; intros [|n] [|m]; simpl; try lia.
  - specialize (IH 0%nat m). lia.
  - apply (IH n 0%nat).
  - apply (IH n (S m)).
Qed.

Lemma length_le_1_cases (s : string) :
  (String.length s ≤ 1)%nat → s = "" ∨ ∃ c, s = String c "".
Proof.
  destruct s as [|c [|c' s]]; simpl; intros Hl; [by left|right; by exists c|lia].
Qed.

(** The text [substr(start, 1)] extracts holds at most one code unit. *)
Lemma substr_1_length (s : string) (start : Z) :
  (String.length (JS.substr s start 1) ≤ 1)%nat.
Proof.
  unfold JS.substr. cbv zeta.
  etrans; [apply length_substring_le|]. unfold JS.str_length. lia.
Qed.

Lemma substr_1_cases (s : string) (start : Z) :
  JS.substr s start 1 = "" ∨ ∃ c, JS.substr s start 1 = String c "".
Proof. apply length_le_1_cases, substr_1_length. Qed.

Lemma substr_empty (start len : Z) : JS.substr "" start len = "".
Proof.
  unfold JS.substr. cbv zeta.
  by destruct (Z.to_nat _) as [|n], (Z.to_nat _) as [|m].
Qed.

(** On a single code unit [parseInt] yields a number exactly for the
    ten decimal digits, and then [String] gives the code unit back. *)
Lemma parseInt_char (c : ascii) (d : Z) :
  JS.parseInt (String c "") = Some d →
  0 ≤ d ≤ 9 ∧ JS.String_of (Some d) = String c "".
Proof.
  destruct c as [[] [] [] [] [] [] [] []]; vm_compute; intros [=]; subst;
    (split; [split; discriminate | reflexivity]).
Qed.

Lemma parseInt_substr_1 (s : string) (start d : Z) :
  JS.parseInt (JS.substr s start 1) = Some d →
  0 ≤ d ≤ 9 ∧ JS.String_of (Some d) = JS.substr s start 1.
Proof.
  destruct (substr_1_cases s start) as [->|[c ->]]; [done|apply parseInt_char].
Qed.

(** The decimal text of an integer from 1 to 9 is one code unit. *)
Lemma digit_cases (d : Z) :
  1 ≤ d ≤ 9 → d = 1 ∨ d = 2 ∨ d = 3 ∨ d = 4 ∨ d = 5 ∨ d = 6 ∨ d = 7 ∨ d = 8 ∨ d = 9.
Proof. lia. Qed.

Lemma String_of_digit_length (d : Z) :
  0 ≤ d ≤ 9 → String.length (JS.String_of (Some d)) = 1%nat.
Proof.
  intros Hd. assert (d = 0 ∨ 1 ≤ d ≤ 9) as [->|Hd'] by lia; [done|].
  destruct (digit_cases d Hd') as [->|[->|[->|[->|[->|[->|[->|[->| ->]]]]]]]]; done.
Qed.

(** [Number(String(n)) = n] for every non-negative integer [n]. *)
Lemma Number_of_String_of (z : Z) :
  0 ≤ z → JS.Number_of (JS.String_of (Some z)) = Some z.
Proof.
  intros Hz. unfold JS.Number_of, JS.String_of.
  destruct z as [|p|p]; [done| |lia].
  simpl. unfold NilZero.string_of_uint.
  pose proof (DecimalPos.Unsigned.to_uint_nonnil p) as Hnil.
  destruct (Pos.to_uint p) eqn:Hp; [done|..];
    rewrite <- Hp, NilEmpty.usu; simpl;
    by rewrite DecimalPos.Unsigned.of_to.
Qed.

Lemma typed_get_nat (a : list Z) (k : nat) :
  JS.typed_get a (Some (Z.of_nat k)) = a !! k.
Proof.
  unfold JS.typed_get. rewrite Nat2Z.id.
  destruct (Z.leb_spec 0 (Z.of_nat k)); [done|lia].
Qed.

Lemma typed_set_nat (a : list Z) (k : nat) (v : Z) :
  0 ≤ v < 256 →
  JS.typed_set a (Some (Z.of_nat k)) (Some v) = <[k := v]> a.
Proof.
  intros Hv. unfold JS.typed_set, JS.ToUint8. rewrite Nat2Z.id.
  destruct (Z.leb_spec 0 (Z.of_nat k)); [|lia].
  by rewrite Z.mod_small.
Qed.

End Primitives.

(** * The input handler *)

Section InputHandler.

Context {Puzzle : Type} `{!PuzzleEngine Puzzle}.

Implicit Types (s : Page Puzzle) (e : HTMLInputElement) (g : list HTMLInputElement).

Lemma bound_spec (k : nat) e :
  bound k e = true ↔
  "cell" ∈ classList e
  ∧ dataset_index e = Some (JS.String_of (Some (Z.of_nat k)))
  ∧ oninput e = Some updateCell_handler.
Proof.
  unfold bound. rewrite !andb_true_iff, !bool_decide_eq_true. tauto.
Qed.

Lemma bound_from_lookup g : ∀ k,
  bound_from k g = true ↔ ∀ i e, g !! i = Some e → bound (k + i) e = true.
Proof.
  induction g as [|x g IH]; intros k; simpl.
  - split; [intros _ i e Hi; by destruct i|done].
  - rewrite andb_true_iff, IH. split.
    + intros [Hx Hg] [|i] e Hi; simplify_eq/=.
      * by rewrite Nat.add_0_r.
      * rewrite <- Nat.add_succ_comm. by apply Hg.
    + intros Hall. split.
      * rewrite <- (Nat.add_0_r k). by apply Hall.
      * intros i e Hi. rewrite Nat.add_succ_comm. by apply (Hall (S i)).
Qed.

Lemma grid_ok_spec g :
  grid_ok g = true ↔
  length g = 81%nat ∧ ∀ k e, g !! k = Some e → bound k e = true.
Proof.
  unfold grid_ok. rewrite andb_true_iff, Nat.eqb_eq, bound_from_lookup. done.
Qed.

Lemma grid_ok_lookup g (k : nat) :
  grid_ok g = true → (k < 81)%nat → ∃ e, g !! k = Some e ∧ bound k e = true.
Proof.
  intros [Hlen Hb]%grid_ok_spec Hk.
  destruct (lookup_lt_is_Some_2 g k) as [e He]; [lia|]. eauto.
Qed.

(** Replacing a widget by one with the same binding keeps the grid. *)
Lemma grid_ok_insert g (k : nat) e :
  grid_ok g = true → bound k e = true → grid_ok (<[k := e]> g) = true.
Proof.
  rewrite !grid_ok_spec. intros [Hlen Hb] He. split; [by rewrite length_insert|].
  intros j x Hj. destruct (decide (k = j)) as [->|Hne].
  - apply list_lookup_insert_Some in Hj as [(_ & -> & _)|[? _]]; done.
  - rewrite list_lookup_insert_ne in Hj by done. by apply Hb.
Qed.

(** The guard of [updateCell] is false exactly on accepted edits. *)
Lemma guard_accepts (nv : JS.Number) :
  negb (JS.Number_isInteger nv) || JS.lt nv 1 || JS.gt nv 9 = false ↔
  ∃ d, nv = Some d ∧ 1 ≤ d ≤ 9.
Proof.
  destruct nv as [d|]; simpl.
  - rewrite orb_false_iff, Z.ltb_ge, Z.gtb_ltb, Z.ltb_ge. split.
    + intros [? ?]. exists d. split; [done|lia].
    + intros (d' & [= <-] & ?). lia.
  - split; [done|]. by intros (d & ? & _).
Qed.

Lemma guard_rejects (raw : string) (cursor : nat) :
  rejects raw cursor →
  negb (JS.Number_isInteger (extracted raw cursor))
  || JS.lt (extracted raw cursor) 1 || JS.gt (extracted raw cursor) 9 = true.
Proof.
  intros Hrej. apply not_false_iff_true. intros (d & Hd & Hr)%guard_accepts.
  by apply (Hrej d).
Qed.

Lemma accepts_or_rejects (raw : string) (cursor : nat) :
  (∃ d, accepts raw cursor d) ∨ rejects raw cursor.
Proof.
  destruct (extracted raw cursor) as [d|] eqn:E.
  - destruct (decide (1 ≤ d ≤ 9)) as [Hd|Hd].
    + left. by exists d.
    + right. intros d' [Hd' ?]. rewrite E in Hd'. simplify_eq. done.
  - right. intros d' [Hd' ?]. by rewrite E in Hd'.
Qed.

(** An accepted event: the widget shows the digit and the digit is
    stored at the widget's board index. *)
Lemma input_event_accept s (k : nat) e raw cursor d :
  grid s !! k = Some e → bound k e = true → accepts raw cursor d →
  input_event k raw cursor s =
  with_cells (<[k := d]> (cells s))
    (with_grid (<[k := set_value (digit_text d) (set_raw raw cursor e)]> (grid s)) s).
Proof.
  intros He (_ & Hidx & Hon)%bound_spec [Hex Hd].
  pose proof (lookup_lt_Some _ _ _ He) as Hk.
  unfold input_event. rewrite He, Hon. unfold updateCell. simpl grid.
  rewrite list_lookup_insert_eq by done. simpl value. simpl selectionStart.
  fold (extracted raw cursor).
  assert (negb (JS.Number_isInteger (extracted raw cursor))
          || JS.lt (extracted raw cursor) 1 || JS.gt (extracted raw cursor) 9 = false)
    as -> by (apply guard_accepts; eauto).
  rewrite Hex. simpl. rewrite list_insert_insert_eq, Hidx. simpl.
  fold (JS.String_of (Some (Z.of_nat k))). fold (JS.String_of (Some d)).
  rewrite !Number_of_String_of by lia.
  rewrite typed_set_nat by lia. done.
Qed.

(** A rejected event: only the widget's text changes. *)
Lemma input_event_reject s (k : nat) e raw cursor :
  grid s !! k = Some e → bound k e = true → rejects raw cursor →
  input_event k raw cursor s =
  with_grid (<[k := set_value (restored raw cursor) (set_raw raw cursor e)]> (grid s)) s.
Proof.
  intros He (_ & Hidx & Hon)%bound_spec Hrej.
  pose proof (lookup_lt_Some _ _ _ He) as Hk.
  unfold input_event. rewrite He, Hon. unfold updateCell. simpl grid.
  rewrite list_lookup_insert_eq by done. simpl value. simpl selectionStart.
  fold (extracted raw cursor). rewrite guard_rejects by done.
  fold (restored raw cursor). simpl. by rewrite list_insert_insert_eq.
Qed.

Lemma input_event_grid_ok s (k : nat) raw cursor :
  grid_ok (grid s) = true → grid_ok (grid (input_event k raw cursor s)) = true.
Proof.
  intros Hok. destruct (grid s !! k) as [e|] eqn:He.
  - assert (bound k e = true) as Hb by (apply grid_ok_spec in Hok as [_ Hb]; eauto).
    destruct (accepts_or_rejects raw cursor) as [[d Hd]|Hr].
    + rewrite (input_event_accept s k e raw cursor d) by done.
      simpl. by apply grid_ok_insert.
    + rewrite (input_event_reject s k e raw cursor) by done.
      simpl. by apply grid_ok_insert.
  - unfold input_event. by rewrite He.
Qed.

Lemma displayed_accept s (k : nat) e raw cursor d :
  grid s !! k = Some e → bound k e = true → accepts raw cursor d →
  displayed k (input_event k raw cursor s) = Some (digit_text d).
Proof.
  intros He Hb Hd. rewrite (input_event_accept s k e raw cursor d) by done.
  unfold displayed. simpl. rewrite list_lookup_insert_eq; [done|].
  by eapply lookup_lt_Some.
Qed.

Lemma displayed_reject s (k : nat) e raw cursor :
  grid s !! k = Some e → bound k e = true → rejects raw cursor →
  displayed k (input_event k raw cursor s) = Some (restored raw cursor).
Proof.
  intros He Hb Hr. rewrite (input_event_reject s k e raw cursor) by done.
  unfold displayed. simpl. rewrite list_lookup_insert_eq; [done|].
  by eapply lookup_lt_Some.
Qed.

Lemma restored_length (raw : string) (cursor : nat) :
  (String.length (restored raw cursor) ≤ 1)%nat.
Proof.
  unfold restored. destruct (JS.str_length raw =? 1); [simpl; lia|].
  apply substr_1_length.
Qed.

Lemma valid_display_length (t : string) :
  valid_display t → (String.length t ≤ 1)%nat.
Proof.
  intros [->|(d & Hd & ->)]; [simpl; lia|].
  unfold digit_text. rewrite String_of_digit_length; lia.
Qed.

(** After a keystroke on a text of at most one character, the text the
    handler restores on rejection is that text or nothing. *)
Lemma keystroke_restored (old : string) (e : Edit) :
  (String.length old ≤ 1)%nat → keystroke e →
  restored (apply_edit e old).1 (apply_edit e old).2 = ""
  ∨ restored (apply_edit e old).1 (apply_edit e old).2 = old.
Proof.
  destruct e as [a b t]. unfold keystroke. simpl edit_text.
  intros [->|[c0 ->]]%length_le_1_cases [->|[c ->]]%length_le_1_cases;
    destruct a as [|[|a]], b as [|[|b]]; vm_compute; auto.
Qed.

(** One character typed on a collapsed caret next to a single displayed
    character: what is restored on rejection is the displayed one. *)
Lemma typed_char_restored (c0 c : ascii) (p : nat) :
  restored (apply_edit (mkEdit p p (String c "")) (String c0 "")).1
           (apply_edit (mkEdit p p (String c "")) (String c0 "")).2
  = String c0 "".
Proof. destruct p as [|[|p]]; vm_compute; done. Qed.

Lemma user_edit_grid_ok s (k : nat) (e : Edit) :
  grid_ok (grid s) = true → grid_ok (grid (user_edit k e s)) = true.
Proof.
  intros Hok. unfold user_edit. destruct (grid s !! k) as [w|]; [|done].
  destruct (readOnly w); [done|].
  destruct (apply_edit e (value w)) as [raw cursor]. by apply input_event_grid_ok.
Qed.

(** A keystroke keeps a valid display valid. *)
Lemma user_edit_valid s (k : nat) (e : Edit) (t : string) :
  grid_ok (grid s) = true → keystroke e →
  displayed k s = Some t → valid_display t →
  ∃ t', displayed k (user_edit k e s) = Some t' ∧ valid_display t'.
Proof.
  intros Hok Hkey Ht Hv. unfold displayed in Ht.
  destruct (grid s !! k) as [w|] eqn:Hw; [|done]. simplify_eq/=.
  assert (bound k w = true) as Hb by (apply grid_ok_spec in Hok as [_ Hb]; eauto).
  unfold user_edit. rewrite Hw. destruct (readOnly w).
  { exists (value w). unfold displayed. by rewrite Hw. }
  pose proof (keystroke_restored (value w) e (valid_display_length _ Hv) Hkey) as Hres.
  destruct (apply_edit e (value w)) as [raw cursor]. simpl in Hres.
  destruct (accepts_or_rejects raw cursor) as [[d Hd]|Hr].
  - exists (digit_text d). split; [by eapply displayed_accept|].
    right. exists d. by destruct Hd.
  - exists (restored raw cursor). split; [by eapply displayed_reject|].
    destruct Hres as [->| ->]; [by left|done].
Qed.

Lemma run_edits_valid (k : nat) (es : list Edit) : ∀ s (t : string),
  grid_ok (grid s) = true → Forall keystroke es →
  displayed k s = Some t → valid_display t →
  ∃ t', displayed k (run_edits k es s) = Some t' ∧ valid_display t'.
Proof.
  induction es as [|e es IH]; intros s t Hok Hall Ht Hv; [by exists t|].
  apply Forall_cons in Hall as [He Hes].
  destruct (user_edit_valid s k e t) as (t' & Ht' & Hv'); [done..|].
  simpl. unfold run_edits in IH. eapply IH; [by apply user_edit_grid_ok|done..].
Qed.

Lemma input_event_length s (k : nat) raw cursor :
  grid_ok (grid s) = true → (k < 81)%nat →
  ∃ t, displayed k (input_event k raw cursor s) = Some t ∧ (String.length t ≤ 1)%nat.
Proof.
  intros Hok Hk. destruct (grid_ok_lookup _ k Hok Hk) as (e & He & Hb).
  destruct (accepts_or_rejects raw cursor) as [[d Hd]|Hr].
  - exists (digit_text d). split; [by eapply displayed_accept|].
    unfold digit_text. destruct Hd as [_ Hd]. rewrite String_of_digit_length; lia.
  - exists (restored raw cursor). split; [by eapply displayed_reject|].
    apply restored_length.
Qed.

Lemma run_events_grid_ok (k : nat) (es : list (string * nat)) : ∀ s,
  grid_ok (grid s) = true → grid_ok (grid (run_events k es s)) = true.
Proof.
  induction es as [|ev es IH]; intros s Hok; [done|].
  simpl. apply IH. by apply input_event_grid_ok.
Qed.

Lemma run_events_snoc (k : nat) (es : list (string * nat)) ev s :
  run_events k (es ++ [ev]) s = input_event k ev.1 ev.2 (run_events k es s).
Proof. unfold run_events. by rewrite foldl_app. Qed.

End InputHandler.

(** * The full refresh *)

Section Refresh.

Context {Puzzle : Type} `{!PuzzleEngine Puzzle}.

Implicit Types (s : Page Puzzle) (e : HTMLInputElement) (g : list HTMLInputElement).

(** ** Class lists *)

Lemma token_add_elem (t x : string) (l : list string) :
  x ∈ token_add t l ↔ x = t ∨ x ∈ l.
Proof.
  unfold token_add. destruct (decide (t ∈ l)) as [Hin|Hin].
  - split; [by right|]. by intros [->|?].
  - rewrite elem_of_app, list_elem_of_singleton. tauto.
Qed.

Lemma token_remove_elem (t x : string) (l : list string) :
  x ∈ token_remove t l ↔ x ≠ t ∧ x ∈ l.
Proof. unfold token_remove. by rewrite list_elem_of_filter. Qed.

Lemma token_add_idemp (t : string) (l : list string) :
  token_add t (token_add t l) = token_add t l.
Proof.
  unfold token_add at 1. rewrite decide_True; [done|].
  apply token_add_elem. by left.
Qed.

Lemma token_remove_idemp (t : string) (l : list string) :
  token_remove t (token_remove t l) = token_remove t l.
Proof.
  unfold token_remove. rewrite list_filter_filter.
  apply list_filter_iff. tauto.
Qed.

(** ** One widget *)

Lemma mark_clue_idemp (t : string) e :
  set_readOnly true (classList_add "clue" (set_value t
    (set_readOnly true (classList_add "clue" (set_value t e)))))
  = set_readOnly true (classList_add "clue" (set_value t e)).
Proof.
  unfold set_readOnly, classList_add, set_value. simpl.
  by rewrite token_add_idemp, decide_True.
Qed.

Lemma unmark_clue_idemp (t : string) e :
  set_readOnly false (classList_remove "clue" (set_value t
    (set_readOnly false (classList_remove "clue" (set_value t e)))))
  = set_readOnly false (classList_remove "clue" (set_value t e)).
Proof.
  unfold set_readOnly, classList_remove, set_value. simpl.
  by rewrite token_remove_idemp, decide_True.
Qed.

Lemma refresh_input_idemp (c : list Z) (clues : gset nat) (i : nat) e :
  refresh_input c clues i (refresh_input c clues i e) = refresh_input c clues i e.
Proof.
  unfold refresh_input. destruct (decide (i ∈ clues)).
  - exact (mark_clue_idemp _ e).
  - exact (unmark_clue_idemp _ e).
Qed.

Lemma refresh_input_has_cell (c : list Z) (clues : gset nat) (i : nat) e :
  has_cell_class (refresh_input c clues i e) = has_cell_class e.
Proof.
  unfold has_cell_class, refresh_input. apply bool_decide_ext.
  destruct (decide (i ∈ clues)); simpl.
  - rewrite token_add_elem. split; [by intros [?|?]|by right].
  - rewrite token_remove_elem. split; [by intros [_ ?]|by split].
Qed.

Lemma refresh_input_bound (c : list Z) (clues : gset nat) (i k : nat) e :
  bound k (refresh_input c clues i e) = bound k e.
Proof.
  unfold bound. fold (has_cell_class (refresh_input c clues i e)).
  rewrite refresh_input_has_cell. unfold refresh_input.
  by destruct (decide (i ∈ clues)).
Qed.

(** What the refresh leaves in a widget bound to board index [k]. *)
Lemma refresh_input_bound_value (c : list Z) (clues : gset nat) (i k : nat) e :
  bound k e = true →
  value (refresh_input c clues i e) =
  match c !! k with
  | Some v => if v =? 0 then "" else JS.String_of (Some v)
  | None => ""
  end.
Proof.
  intros (_ & Hidx & _)%bound_spec. unfold refresh_input.
  rewrite Hidx. unfold JS.Number_of_opt. rewrite Number_of_String_of by lia.
  rewrite typed_get_nat. by destruct (decide (i ∈ clues)).
Qed.

Lemma refresh_input_readOnly (c : list Z) (clues : gset nat) (i : nat) e :
  readOnly (refresh_input c clues i e) = bool_decide (i ∈ clues).
Proof.
  unfold refresh_input. destruct (decide (i ∈ clues)); simpl.
  - by rewrite bool_decide_eq_true_2.
  - by rewrite bool_decide_eq_false_2.
Qed.

Lemma refresh_input_clue (c : list Z) (clues : gset nat) (i : nat) e :
  "clue" ∈ classList (refresh_input c clues i e) ↔ i ∈ clues.
Proof.
  unfold refresh_input. destruct (decide (i ∈ clues)); simpl.
  - rewrite token_add_elem. split; [done|by left].
  - rewrite token_remove_elem. split; [by intros [? _]|done].
Qed.

(** ** The selected widgets *)

Lemma matching_from_elem g : ∀ (k node : nat),
  node ∈ matching_from k g → (k ≤ node < k + length g)%nat.
Proof.
  induction g as [|e g IH]; intros k node; simpl; [by intros ?%elem_of_nil|].
  destruct (has_cell_class e).
  - intros [->|Hin%IH]%elem_of_cons; lia.
  - intros Hin%IH. lia.
Qed.

Lemma matching_from_NoDup g : ∀ k : nat, NoDup (matching_from k g).
Proof.
  induction g as [|e g IH]; intros k; simpl; [constructor|].
  destruct (has_cell_class e); [|apply IH].
  constructor; [|apply IH]. intros Hin%matching_from_elem. lia.
Qed.

Lemma matching_from_ext g : ∀ g' (k : nat),
  has_cell_class <$> g = has_cell_class <$> g' →
  matching_from k g = matching_from k g'.
Proof.
  induction g as [|e g IH]; intros [|e' g'] k Heq; try done.
  injection Heq as He Hg. simpl. rewrite He.
  destruct (has_cell_class e'); [f_equal|]; by apply IH.
Qed.

Lemma matching_from_all g : ∀ k : nat,
  (∀ i e, g !! i = Some e → has_cell_class e = true) →
  matching_from k g = seq k (length g).
Proof.
  induction g as [|e g IH]; intros k Hall; simpl; [done|].
  rewrite (Hall 0%nat e) by done. f_equal. apply IH.
  intros i e' Hi. by apply (Hall (S i)).
Qed.

(** ** The loop *)

Lemma with_grid_id s : with_grid (grid s) s = s.
Proof. by destruct s. Qed.

Lemma with_grid_frame g s s' :
  s' = with_grid (grid s') s → with_grid g s' = with_grid g s.
Proof. intros Hf. by rewrite Hf. Qed.

(** After [n] turns of the loop only the grid differs; the widgets
    selected at positions below [n] are refreshed, each with its own
    loop counter, and every other widget is as before. *)
Lemma refresh_loop_spec (inputs : list nat) s :
  NoDup inputs → ∀ n : nat,
  let s' := foldl (refresh_step inputs) s (seq 0 n) in
  s' = with_grid (grid s') s
  ∧ (∀ (j node : nat), (j < n)%nat → inputs !! j = Some node →
       grid s' !! node = refresh_input (cells s) (clueIndices s) j <$> grid s !! node)
  ∧ (∀ node : nat, (∀ j : nat, (j < n)%nat → inputs !! j ≠ Some node) →
       grid s' !! node = grid s !! node).
Proof.
  intros Hnd n. induction n as [|n IH]; cbv zeta in *.
  { simpl. split; [by rewrite with_grid_id|]. split; [intros; lia|done]. }
  rewrite seq_S, foldl_app. simpl.
  set (sn := foldl (refresh_step inputs) s (seq 0 n)) in *.
  destruct IH as (Hf & HA & HB). unfold refresh_step.
  destruct (inputs !! n) as [node|] eqn:Hn.
  - assert (grid sn !! node = grid s !! node) as Hsame.
    { apply HB. intros j Hj Hjn.
      pose proof (NoDup_lookup _ _ _ _ Hnd Hjn Hn). lia. }
    assert (cells sn = cells s ∧ clueIndices sn = clueIndices s) as [Hc Hq]
      by (by rewrite Hf).
    destruct (grid sn !! node) as [e|] eqn:Hg.
    + pose proof (lookup_lt_Some _ _ _ Hg) as Hlt.
      simpl. split; [by apply with_grid_frame|]. split.
      * intros j node' Hj Hj'. destruct (decide (j = n)) as [->|Hne].
        -- simplify_eq. rewrite list_lookup_insert_eq by done.
           by rewrite <- Hsame, Hc, Hq.
        -- assert (node ≠ node') as Hnn.
           { intros <-. pose proof (NoDup_lookup _ _ _ _ Hnd Hj' Hn). done. }
           rewrite list_lookup_insert_ne by done. apply HA; [lia|done].
      * intros node' Hout.
        assert (node ≠ node') as Hnn by (intros <-; by apply (Hout n); [lia|]).
        rewrite list_lookup_insert_ne by done. apply HB.
        intros j Hj. apply Hout. lia.
    + split; [done|]. split.
      * intros j node' Hj Hj'. destruct (decide (j = n)) as [->|Hne].
        -- simplify_eq. by rewrite Hg, <- Hsame.
        -- apply HA; [lia|done].
      * intros node' Hout. apply HB. intros j Hj. apply Hout. lia.
  - split; [done|]. split.
    + intros j node' Hj Hj'. destruct (decide (j = n)) as [->|Hne]; [congruence|].
      apply HA; [lia|done].
    + intros node' Hout. apply HB. intros j Hj. apply Hout. lia.
Qed.

Lemma refreshGrid_frame s : refreshGrid s = with_grid (grid (refreshGrid s)) s.
Proof.
  unfold refreshGrid.
  apply (refresh_loop_spec _ s (matching_from_NoDup (grid s) 0)).
Qed.

Lemma refreshGrid_cells s : cells (refreshGrid s) = cells s.
Proof. by rewrite refreshGrid_frame. Qed.

Lemma refreshGrid_clueIndices s : clueIndices (refreshGrid s) = clueIndices s.
Proof. by rewrite refreshGrid_frame. Qed.

Lemma refreshGrid_lookup_in s (j node : nat) :
  querySelectorAll_cell (grid s) !! j = Some node →
  grid (refreshGrid s) !! node
  = refresh_input (cells s) (clueIndices s) j <$> grid s !! node.
Proof.
  intros Hj. unfold refreshGrid.
  eapply (refresh_loop_spec _ s (matching_from_NoDup (grid s) 0)); [|done].
  by eapply lookup_lt_Some.
Qed.

Lemma refreshGrid_lookup_out s (node : nat) :
  node ∉ querySelectorAll_cell (grid s) →
  grid (refreshGrid s) !! node = grid s !! node.
Proof.
  intros Hout. unfold refreshGrid.
  apply (refresh_loop_spec _ s (matching_from_NoDup (grid s) 0)).
  intros j _ Hj. apply Hout. by eapply list_elem_of_lookup_2.
Qed.

(** The refresh selects the same widgets the next time. *)
Lemma refreshGrid_selection s :
  querySelectorAll_cell (grid (refreshGrid s)) = querySelectorAll_cell (grid s).
Proof.
  apply matching_from_ext, list_eq. intros node. rewrite !list_lookup_fmap.
  destruct (decide (node ∈ querySelectorAll_cell (grid s))) as [Hin|Hout].
  - apply list_elem_of_lookup_1 in Hin as [j Hj].
    rewrite (refreshGrid_lookup_in s j node Hj).
    destruct (grid s !! node); [simpl|done]. by rewrite refresh_input_has_cell.
  - by rewrite refreshGrid_lookup_out.
Qed.

(** On the grid of the running page every widget is selected, at the
    position that is also its board index. *)
Lemma refreshGrid_lookup s (k : nat) :
  grid_ok (grid s) = true →
  grid (refreshGrid s) !! k
  = refresh_input (cells s) (clueIndices s) k <$> grid s !! k.
Proof.
  intros [Hlen Hb]%grid_ok_spec.
  assert (querySelectorAll_cell (grid s) = seq 0 (length (grid s))) as Hsel.
  { apply matching_from_all. intros i e Hi.
    apply Hb, bound_spec in Hi as [Hi _]. by apply bool_decide_eq_true_2. }
  destruct (decide (k < length (grid s))%nat) as [Hk|Hk].
  - apply refreshGrid_lookup_in. rewrite Hsel. by apply lookup_seq_lt.
  - rewrite refreshGrid_lookup_out.
    + by rewrite lookup_ge_None_2 by lia.
    + rewrite Hsel, elem_of_seq. lia.
Qed.

Lemma refreshGrid_grid_ok s :
  grid_ok (grid s) = true → grid_ok (grid (refreshGrid s)) = true.
Proof.
  intros Hok. pose proof Hok as [Hlen Hb]%grid_ok_spec.
  apply grid_ok_spec. split.
  - rewrite <- Hlen. apply Nat.le_antisymm.
    + apply Nat.nlt_ge. intros Hlt.
      destruct (lookup_lt_is_Some_2 (grid (refreshGrid s)) (length (grid s)) Hlt)
        as [e He].
      rewrite refreshGrid_lookup, lookup_ge_None_2 in He by (done || lia). done.
    + apply Nat.nlt_ge. intros Hlt.
      destruct (lookup_lt_is_Some_2 (grid s) (length (grid (refreshGrid s))) Hlt)
        as [e He].
      pose proof (refreshGrid_lookup s (length (grid (refreshGrid s))) Hok) as Hl.
      rewrite He, lookup_ge_None_2 in Hl by lia. done.
  - intros k e He. rewrite refreshGrid_lookup in He by done.
    destruct (grid s !! k) as [w|] eqn:Hw; simplify_eq/=.
    rewrite refresh_input_bound. by eapply Hb.
Qed.

(** ** The grid after a refresh *)

(** C4. Immediately after a full refresh, widget [i] of the grid (for
    every position [i] from 0 to 80) shows the empty text when
    [Board[i]] is 0 and the decimal text of [Board[i]] otherwise, which
    is one character for a value from 1 to 9; its read-only flag is set,
    and its class list holds the clue marker, exactly when [i] is in the
    clue set. *)
Theorem refreshGrid_sync s (i : nat) :
  grid_ok (grid s) = true → (i < 81)%nat →
  ∃ w, grid (refreshGrid s) !! i = Some w
     ∧ value w = match cells s !! i with
                 | Some v => if v =? 0 then "" else JS.String_of (Some v)
                 | None => ""
                 end
     ∧ (∀ v, cells s !! i = Some v → 1 ≤ v ≤ 9 →
          String.length (value w) = 1%nat)
     ∧ readOnly w = bool_decide (i ∈ clueIndices s)
     ∧ ("clue" ∈ classList w ↔ i ∈ clueIndices s).
Proof.
  intros Hok Hi. destruct (grid_ok_lookup _ i Hok Hi) as (e & He & Hb).
  exists (refresh_input (cells s) (clueIndices s) i e).
  split; [by rewrite refreshGrid_lookup, He|].
  assert (value (refresh_input (cells s) (clueIndices s) i e) =
          match cells s !! i with
          | Some v => if v =? 0 then "" else JS.String_of (Some v)
          | None => ""
          end) as Hval by by apply refresh_input_bound_value.
  split; [done|]. split.
  - intros v Hv Hr. rewrite Hval, Hv.
    destruct (Z.eqb_spec v 0) as [->|_]; [lia|].
    apply String_of_digit_length. lia.
  - split; [apply refresh_input_readOnly|apply refresh_input_clue].
Qed.

(** C9. The full refresh is idempotent: whatever the board, the clue
    set and the widgets are, a second refresh right after a first one
    leaves the whole page, and so every widget's text, read-only flag
    and class list, as the first one left it. *)
Theorem refreshGrid_idempotent s :
  refreshGrid (refreshGrid s) = refreshGrid s.
Proof.
  rewrite (refreshGrid_frame (refreshGrid s)).
  rewrite <- (with_grid_id (refreshGrid s)) at 3. f_equal.
  apply list_eq. intros node.
  destruct (decide (node ∈ querySelectorAll_cell (grid s))) as [Hin|Hout].
  - apply list_elem_of_lookup_1 in Hin as [j Hj].
    rewrite (refreshGrid_lookup_in (refreshGrid s) j node)
      by by rewrite refreshGrid_selection.
    rewrite refreshGrid_cells, refreshGrid_clueIndices.
    rewrite (refreshGrid_lookup_in s j node Hj).
    destruct (grid s !! node); [simpl|done]. by rewrite refresh_input_idemp.
  - rewrite refreshGrid_lookup_out; [done|]. by rewrite refreshGrid_selection.
Qed.

(** ** The grid [initializeGrid] builds *)

Lemma append_cells_grid (l : list nat) : ∀ s,
  grid (foldl (λ s i, appendChild (new_cell i) s) s l) = grid s ++ (new_cell <$> l).
Proof.
  induction l as [|i l IH]; intros s; simpl; [by rewrite app_nil_r|].
  rewrite IH. simpl. by rewrite <- app_assoc.
Qed.

(** From a document whose grid element is empty, [initializeGrid]
    leaves 81 widgets, each bound to its own position. *)
Lemma initializeGrid_grid_ok s :
  grid s = [] → grid_ok (grid (initializeGrid s)) = true.
Proof.
  intros Hg. unfold initializeGrid. apply refreshGrid_grid_ok.
  rewrite append_cells_grid, Hg. by vm_compute.
Qed.

End Refresh.

(** * Edits *)

Section Edits.

Context {Puzzle : Type} `{!PuzzleEngine Puzzle}.

Implicit Types (s : Page Puzzle) (e : HTMLInputElement).

(** C1. For every input event on the widget with board index [k]: when
    the edit is accepted with digit [d], [Board[k]] is [d] afterwards
    and the widget shows exactly the one character of [d], which is the
    character that was extracted (the other cells are as before); when
    it is rejected, the whole board is unchanged. *)
Theorem updateCell_write_through s (k : nat) (raw : string) (cursor : nat) :
  grid_ok (grid s) = true → length (cells s) = 81%nat → (k < 81)%nat →
  let s' := input_event k raw cursor s in
  (∀ d, accepts raw cursor d →
     cells s' !! k = Some d
     ∧ displayed k s' = Some (digit_text d)
     ∧ String.length (digit_text d) = 1%nat
     ∧ digit_text d = JS.substr raw (Z.of_nat cursor - 1) 1
     ∧ ∀ j : nat, j ≠ k → cells s' !! j = cells s !! j)
  ∧ (rejects raw cursor → cells s' = cells s).
Proof.
  intros Hok Hlen Hk. destruct (grid_ok_lookup _ k Hok Hk) as (e & He & Hb).
  cbv zeta. split.
  - intros d Hd. split; [|split; [by eapply displayed_accept|split; [|split]]].
    + rewrite (input_event_accept s k e raw cursor d) by done. simpl.
      apply list_lookup_insert_eq. lia.
    + destruct Hd as [_ Hd]. apply String_of_digit_length. lia.
    + destruct Hd as [Hex _]. by apply parseInt_substr_1 in Hex as [_ Hex].
    + intros j Hj. rewrite (input_event_accept s k e raw cursor d) by done.
      simpl. by apply list_lookup_insert_ne.
  - intros Hr. by rewrite (input_event_reject s k e raw cursor).
Qed.

(** C10. No edit writes 0 into the board: whatever the event, a cell
    either keeps its value or receives an integer from 1 to 9. So an
    event that leaves the text empty (the user cleared the widget)
    leaves [Board[k]] at its previous non-zero value [v] while the
    widget shows nothing, and a full refresh after it shows [v] again. *)
Theorem no_edit_writes_zero s (k : nat) :
  grid_ok (grid s) = true → (k < 81)%nat →
  (∀ raw cursor (j : nat) v,
     cells (input_event k raw cursor s) !! j = Some v →
     cells s !! j = Some v ∨ 1 ≤ v ≤ 9)
  ∧ (∀ cursor v, cells s !! k = Some v → v ≠ 0 →
       let s' := input_event k "" cursor s in
       cells s' !! k = Some v
       ∧ displayed k s' = Some ""
       ∧ displayed k (refreshGrid s') = Some (JS.String_of (Some v))).
Proof.
  intros Hok Hk. destruct (grid_ok_lookup _ k Hok Hk) as (e & He & Hb). split.
  - intros raw cursor j v.
    destruct (accepts_or_rejects raw cursor) as [[d Hd]|Hr].
    + rewrite (input_event_accept s k e raw cursor d) by done. simpl.
      intros [(-> & <- & _)|[_ Hj]]%list_lookup_insert_Some; [right|by left].
      by destruct Hd.
    + rewrite (input_event_reject s k e raw cursor) by done. simpl. by left.
  - intros cursor v Hv Hnz. cbv zeta.
    assert (rejects "" cursor) as Hr.
    { intros d [Hd _]. unfold extracted in Hd. by rewrite substr_empty in Hd. }
    assert (restored "" cursor = "") as Hres.
    { unfold restored. simpl. apply substr_empty. }
    split; [by rewrite (input_event_reject s k e "" cursor)|].
    split; [by rewrite (displayed_reject s k e "" cursor), Hres|].
    unfold displayed. rewrite refreshGrid_lookup by by apply input_event_grid_ok.
    rewrite (input_event_reject s k e "" cursor) by done. simpl.
    rewrite list_lookup_insert_eq by by eapply lookup_lt_Some. simpl. f_equal.
    rewrite (refresh_input_bound_value _ _ k k) by done. rewrite Hv.
    by destruct (Z.eqb_spec v 0).
Qed.

(** C2, amended. After every event of any run of input events on one
    widget (arbitrary raw text and caret each time) the widget shows at
    most one character. It shows nothing or one digit from 1 to 9 after
    every edit of a run of keystrokes (each replacing the selection by
    at most one character: typing, typing over a selection, Backspace,
    Delete) that starts from a display of that form. *)
Theorem display_after_events s (k : nat) :
  grid_ok (grid s) = true → (k < 81)%nat →
  (∀ es : list (string * nat), es ≠ [] →
     ∃ t, displayed k (run_events k es s) = Some t ∧ (String.length t ≤ 1)%nat)
  ∧ (∀ (es : list Edit) (t : string),
       displayed k s = Some t → valid_display t → Forall keystroke es →
       ∃ t', displayed k (run_edits k es s) = Some t' ∧ valid_display t').
Proof.
  intros Hok Hk. split.
  - intros es. destruct es as [|ev es] using rev_ind; [done|]. intros _.
    rewrite run_events_snoc. apply input_event_length; [|done].
    by apply run_events_grid_ok.
  - intros es t Ht Hv Hall. by eapply run_edits_valid.
Qed.

(** C3, amended. On a rejected event the handler sets the displayed
    text to nothing when the raw text has length 1, and otherwise to
    the character of the raw text at position length minus caret
    (nothing when there is no such character). When one character was
    typed on a collapsed caret before or after a single displayed
    character and is rejected, that is the character displayed before;
    in particular typing "x" into a widget showing "7" leaves "7"
    displayed and the board as it was. *)
Theorem rejected_edit_display s (k : nat) :
  grid_ok (grid s) = true → (k < 81)%nat →
  (∀ raw cursor, rejects raw cursor →
     displayed k (input_event k raw cursor s) =
     Some (if JS.str_length raw =? 1 then ""
           else JS.substr raw (JS.str_length raw - Z.of_nat cursor) 1))
  ∧ (∀ (c0 c : ascii) (p : nat),
       displayed k s = Some (String c0 "") →
       let ed := mkEdit p p (String c "") in
       rejects (apply_edit ed (String c0 "")).1 (apply_edit ed (String c0 "")).2 →
       displayed k (user_edit k ed s) = Some (String c0 ""))
  ∧ (∀ p : nat,
       displayed k s = Some "7" →
       displayed k (user_edit k (mkEdit p p "x") s) = Some "7"
       ∧ cells (user_edit k (mkEdit p p "x") s) = cells s).
Proof.
  intros Hok Hk. destruct (grid_ok_lookup _ k Hok Hk) as (e & He & Hb).
  assert (∀ (c0 c : ascii) (p : nat),
            displayed k s = Some (String c0 "") →
            let ed := mkEdit p p (String c "") in
            rejects (apply_edit ed (String c0 "")).1 (apply_edit ed (String c0 "")).2 →
            displayed k (user_edit k ed s) = Some (String c0 "")
            ∧ cells (user_edit k ed s) = cells s) as Htyped.
  { intros c0 c p Hd ed Hr. subst ed. unfold displayed in Hd. rewrite He in Hd.
    simpl in Hd. injection Hd as Hd.
    unfold user_edit. rewrite He. destruct (readOnly e).
    { split; [|done]. unfold displayed. rewrite He. simpl. by rewrite Hd. }
    rewrite Hd. pose proof (typed_char_restored c0 c p) as Hres.
    destruct (apply_edit (mkEdit p p (String c "")) (String c0 ""))
      as [raw cursor].
    cbn [fst snd] in Hr, Hres. split.
    - by rewrite (displayed_reject s k e raw cursor), Hres.
    - by rewrite (input_event_reject s k e raw cursor). }
  split; [|split].
  - intros raw cursor Hr. by apply (displayed_reject s k e).
  - intros c0 c p Hd ed Hr. by apply Htyped.
  - intros p Hd. apply (Htyped "7"%char "x"%char p Hd).
    intros d [Hex _]. revert Hex. by destruct p as [|[|p]]; vm_compute.
Qed.

End Edits.

(** * The actions *)

Section Actions.

Context {Puzzle : Type} `{!PuzzleEngine Puzzle}.

Implicit Types (s : Page Puzzle).

(** The clue set [initializeClues] computes holds exactly the positions
    of the non-zero cells; position 0 is kept, as [0 != null]. *)
Lemma initializeClues_spec s (i : nat) :
  i ∈ clueIndices (initializeClues s) ↔ ∃ v, cells s !! i = Some v ∧ v ≠ 0.
Proof.
  unfold initializeClues. simpl. rewrite elem_of_list_to_set, list_elem_of_omap.
  split.
  - intros (x & Hx & Hid). simpl in Hid. subst x.
    apply list_elem_of_filter in Hx as [_ Hx].
    apply list_elem_of_lookup_1 in Hx as [j Hj].
    rewrite list_lookup_imap in Hj.
    destruct (cells s !! j) as [v|] eqn:Hv; [simpl in Hj|done].
    destruct (Z.eqb_spec v 0); simplify_eq. by exists v.
  - intros (v & Hv & Hnz). exists (Some i). split; [|done].
    apply list_elem_of_filter. split; [done|].
    apply (list_elem_of_lookup_2 _ i). rewrite list_lookup_imap, Hv. simpl.
    by destruct (Z.eqb_spec v 0).
Qed.

(** After the generate action on the grid of the running page, widget
    [i] is rendered from the board the engine returned and from the
    clue set computed on that board. *)
Lemma generatePuzzle_rendered s (i : nat) (v : Z) :
  grid_ok (grid s) = true → (i < 81)%nat →
  (Puzzle_generate (puzzle s) (cells s)).2 !! i = Some v →
  ∃ w, grid (generatePuzzle s) !! i = Some w
     ∧ value w = (if v =? 0 then "" else JS.String_of (Some v))
     ∧ readOnly w = bool_decide (v ≠ 0)
     ∧ ("clue" ∈ classList w ↔ v ≠ 0).
Proof.
  intros Hok Hi Hv. unfold generatePuzzle.
  set (s1 := with_engine (Puzzle_generate (puzzle s) (cells s)) s) in *.
  destruct (grid_ok_lookup _ i Hok Hi) as (e & He & Hb).
  set (s2 := initializeClues s1).
  assert (i ∈ clueIndices s2 ↔ v ≠ 0) as Hclue.
  { unfold s2. rewrite initializeClues_spec.
    change (cells s1 !! i) with ((Puzzle_generate (puzzle s) (cells s)).2 !! i).
    rewrite Hv. split; [by intros (? & [= <-] & ?)|intros; by exists v]. }
  exists (refresh_input (cells s2) (clueIndices s2) i e). split.
  { rewrite refreshGrid_lookup by done. change (grid s2) with (grid s).
    by rewrite He. }
  rewrite (refresh_input_bound_value _ _ i i) by done.
  change (cells s2 !! i) with ((Puzzle_generate (puzzle s) (cells s)).2 !! i).
  rewrite Hv, refresh_input_readOnly, refresh_input_clue.
  split; [done|]. split; [by apply bool_decide_ext|done].
Qed.

(** C5. The generate action calls the engine's [generate] first, then
    replaces the clue set by exactly the positions whose cell is
    non-zero in the board [generate] returned, and then performs the
    full refresh, on that board and that clue set: on the grid of the
    running page every widget [i] comes out showing the generated cell
    (nothing for 0), read-only and marked as a clue exactly when that
    cell is non-zero. *)
Theorem generatePuzzle_order s :
  let gen := Puzzle_generate (puzzle s) (cells s) in
  let s' := generatePuzzle s in
  puzzle s' = gen.1 ∧ cells s' = gen.2
  ∧ (∀ i : nat, i ∈ clueIndices s' ↔ ∃ v, gen.2 !! i = Some v ∧ v ≠ 0)
  ∧ s' = refreshGrid (with_clueIndices (clueIndices s') (with_engine gen s))
  ∧ (grid_ok (grid s) = true →
     ∀ (i : nat) (v : Z), (i < 81)%nat → gen.2 !! i = Some v →
     ∃ w, grid s' !! i = Some w
        ∧ value w = (if v =? 0 then "" else JS.String_of (Some v))
        ∧ readOnly w = bool_decide (v ≠ 0)
        ∧ ("clue" ∈ classList w ↔ v ≠ 0)).
Proof.
  cbv zeta. split; [|split; [|split; [|split]]].
  - unfold generatePuzzle. by rewrite refreshGrid_frame.
  - unfold generatePuzzle. by rewrite refreshGrid_cells.
  - intros i. unfold generatePuzzle. rewrite refreshGrid_clueIndices.
    apply (initializeClues_spec
             (with_engine (Puzzle_generate (puzzle s) (cells s)) s)).
  - unfold generatePuzzle. by rewrite refreshGrid_clueIndices.
  - intros Hok i v Hi Hv. by apply generatePuzzle_rendered.
Qed.

(** C6. The solve action leaves the clue set as it was before the call:
    the board is the one the engine's [solve] returned, and after the
    refresh a widget whose position is not in the clue set is editable
    and carries no clue marker, whatever the solver stored there. *)
Theorem solvePuzzle_keeps_clues s (i : nat) :
  grid_ok (grid s) = true → (i < 81)%nat →
  clueIndices (solvePuzzle s) = clueIndices s
  ∧ cells (solvePuzzle s) = (Puzzle_solve (puzzle s) (cells s)).2
  ∧ (i ∉ clueIndices s →
     ∃ w, grid (solvePuzzle s) !! i = Some w
        ∧ readOnly w = false ∧ "clue" ∉ classList w).
Proof.
  intros Hok Hi. unfold solvePuzzle.
  set (s1 := with_engine (Puzzle_solve (puzzle s) (cells s)) s).
  rewrite refreshGrid_clueIndices, refreshGrid_cells.
  split; [done|]. split; [done|]. intros Hout.
  destruct (grid_ok_lookup _ i Hok Hi) as (e & He & _).
  exists (refresh_input (cells s1) (clueIndices s1) i e). split.
  { rewrite refreshGrid_lookup by done. change (grid s1) with (grid s).
    by rewrite He. }
  split.
  - rewrite refresh_input_readOnly. by apply bool_decide_eq_false_2.
  - by rewrite refresh_input_clue.
Qed.

(** [cells.every((x) => x !== 0)]. *)
Lemma every_nonzero_spec (l : list Z) :
  forallb (λ x, negb (x =? 0)) l = true ↔ Forall (λ x, x ≠ 0) l.
Proof.
  induction l as [|x l IH]; simpl; [by split|].
  rewrite andb_true_iff, Forall_cons, IH, negb_true_iff, Z.eqb_neq. done.
Qed.

(** C7. The verify action chooses its notification by three cases:
    when the engine's [verify] returns false, the mistake message in
    error style; when it returns true and every board cell is non-zero,
    the solved message in success style; when it returns true and some
    board cell is zero, the in-progress message in success style. *)
Theorem verifyPuzzle_notification s :
  let n := notificationDiv (verifyPuzzle s) in
  (Puzzle_verify (puzzle s) (cells s) = false →
     firstChild_textContent n = "Oops! There is a mistake somewhere."
     ∧ notification_classList n = ["visible"; "error"])
  ∧ (Puzzle_verify (puzzle s) (cells s) = true →
     Forall (λ x, x ≠ 0) (cells s) →
     firstChild_textContent n = "Congratulations! You solved it."
     ∧ notification_classList n = ["visible"; "success"])
  ∧ (Puzzle_verify (puzzle s) (cells s) = true →
     Exists (λ x, x = 0) (cells s) →
     firstChild_textContent n = "Looks good so far!"
     ∧ notification_classList n = ["visible"; "success"]).
Proof.
  cbv zeta. unfold verifyPuzzle.
  destruct (Puzzle_verify (puzzle s) (cells s)); simpl.
  - split; [done|]. split; intros _ Hc.
    + by rewrite (proj2 (every_nonzero_spec (cells s)) Hc).
    + assert (forallb (λ x, negb (x =? 0)) (cells s) = false) as ->; [|done].
      apply not_true_iff_false. intros Hall%every_nonzero_spec.
      apply Exists_exists in Hc as (x & Hx & ->).
      by apply (proj1 (Forall_forall _ _) Hall 0) in Hx.
  - split; [done|]. by split.
Qed.

(** C8. The verify action changes neither the engine state and the
    board, nor the clue set, nor any widget, nor the buttons: it only
    sets the notification and queues the callback that clears the
    notification's classes after 2500 ms, and that callback, when it
    runs, touches nothing but those classes. *)
Theorem verifyPuzzle_frame s :
  let s' := verifyPuzzle s in
  puzzle s' = puzzle s ∧ cells s' = cells s
  ∧ clueIndices s' = clueIndices s ∧ grid s' = grid s
  ∧ generateButton_onclick s' = generateButton_onclick s
  ∧ verifyButton_onclick s' = verifyButton_onclick s
  ∧ solveButton_onclick s' = solveButton_onclick s
  ∧ timers s' = timers s ++ [(clear_notification_className, 2500)]
  ∧ run_timer clear_notification_className s'
    = with_notification
        (mkNotification (firstChild_textContent (notificationDiv s')) []) s'.
Proof.
  cbv zeta. unfold verifyPuzzle.
  destruct (Puzzle_verify (puzzle s) (cells s)); [|done].
  by destruct (forallb (λ x, negb (x =? 0)) (cells s)).
Qed.

(** ** The page after start-up *)

Lemma initializeOptions_grid s : grid (initializeOptions s) = grid s.
Proof. reflexivity. Qed.

Lemma initializeClues_grid s : grid (initializeClues s) = grid s.
Proof. reflexivity. Qed.

Lemma main_grid_ok (doc : Page Puzzle) :
  grid doc = [] → grid_ok (grid (main doc)) = true.
Proof.
  intros Hg. unfold main. rewrite initializeOptions_grid.
  apply initializeGrid_grid_ok. by rewrite initializeClues_grid.
Qed.

Lemma generatePuzzle_grid_ok s :
  grid_ok (grid s) = true → grid_ok (grid (generatePuzzle s)) = true.
Proof. intros Hok. unfold generatePuzzle. by apply refreshGrid_grid_ok. Qed.

Lemma solvePuzzle_grid_ok s :
  grid_ok (grid s) = true → grid_ok (grid (solvePuzzle s)) = true.
Proof. intros Hok. unfold solvePuzzle. by apply refreshGrid_grid_ok. Qed.

Lemma verifyPuzzle_grid_ok s :
  grid_ok (grid s) = true → grid_ok (grid (verifyPuzzle s)) = true.
Proof.
  intros Hok. unfold verifyPuzzle.
  destruct (Puzzle_verify (puzzle s) (cells s)); [|done].
  by destruct (forallb (λ x, negb (x =? 0)) (cells s)).
Qed.

Lemma fire_timer_grid s : grid (fire_timer s) = grid s.
Proof.
  unfold fire_timer. destruct (timers s) as [|[cb delay] rest]; [done|].
  by destruct cb.
Qed.

(** Every page of a session has the 81 widgets of [initializeGrid],
    each bound to its own position. *)
Lemma reachable_grid_ok (doc : Page Puzzle) s :
  grid doc = [] → reachable doc s → grid_ok (grid s) = true.
Proof.
  intros Hdoc Hreach. induction Hreach as [|s ev _ IH].
  - by apply main_grid_ok.
  - destruct ev as [target raw cursor|target e|b|]; simpl.
    + by apply input_event_grid_ok.
    + by apply user_edit_grid_ok.
    + destruct (onclick b s) as [[| |]|]; simpl;
        [by apply generatePuzzle_grid_ok|by apply verifyPuzzle_grid_ok
        |by apply solvePuzzle_grid_ok|done].
    + by rewrite fire_timer_grid.
Qed.

End Actions.

(** * A scripted session *)

Section Session.

Import Scripted.

(** The scenarios of a session against the scripted engine. *)
Example generate_scenario :
  cells generated = 5 :: replicate 80 0
  ∧ elements (clueIndices generated) = [0%nat]
  ∧ (λ w, (value w, readOnly w)) <$> grid generated
    = ("5", true) :: replicate 80 ("", false).
Proof. by vm_compute. Qed.

Example type_7_scenario :
  cells typed7 !! 1%nat = Some 7 ∧ displayed 1 typed7 = Some "7".
Proof. by vm_compute. Qed.

Example clue_is_read_only :
  user_edit 0 (mkEdit 1 1 "7") generated = generated.
Proof. by vm_compute. Qed.

Example solve_scenario :
  cells solved = 5 :: 7 :: replicate 79 1
  ∧ elements (clueIndices solved) = [0%nat]
  ∧ (λ w, (value w, readOnly w)) <$> grid solved
    = ("5", true) :: ("7", false) :: replicate 79 ("1", false).
Proof. by vm_compute. Qed.

Lemma not_valid_display_a : ¬ valid_display "a".
Proof.
  intros [Ha|(d & Hd & Ha)]; [done|].
  destruct (digit_cases d Hd) as [->|[->|[->|[->|[->|[->|[->|[->| ->]]]]]]]]; done.
Qed.

Lemma rejects_None (raw : string) (cursor : nat) :
  extracted raw cursor = None → rejects raw cursor.
Proof. intros Hex d [Hd _]. by rewrite Hex in Hd. Qed.

Lemma updateCell_write_through_witness :
  grid_ok (grid generated) = true ∧ length (cells generated) = 81%nat
  ∧ (1 < 81)%nat
  ∧ cells (input_event 1 "7" 1 generated) !! 1%nat = Some 7
  ∧ displayed 1 (input_event 1 "7" 1 generated) = Some "7"
  ∧ cells (input_event 1 "x" 1 generated) = cells generated.
Proof.
  assert (accepts "7" 1 7) as Ha by (split; [reflexivity|lia]).
  assert (rejects "x" 1) as Hr by (apply rejects_None; reflexivity).
  assert (grid_ok (grid generated) = true) as Hok by (vm_compute; reflexivity).
  assert (length (cells generated) = 81%nat) as Hlen by (vm_compute; reflexivity).
  assert (1 < 81)%nat as Hk by lia.
  destruct (updateCell_write_through generated 1 "7" 1 Hok Hlen Hk) as [Hacc _].
  destruct (Hacc 7 Ha) as (Hcell & Hshown & _).
  destruct (updateCell_write_through generated 1 "x" 1 Hok Hlen Hk) as [_ Hrej].
  split; [exact Hok|]. split; [exact Hlen|]. split; [exact Hk|].
  split; [exact Hcell|]. split; [exact Hshown|exact (Hrej Hr)].
Defined.

(** C2 as stated fails. "ab" pasted into the empty widget 1 leaves the
    raw text "ab" with the caret at 2; the character before the caret,
    "b", is rejected, and the handler then displays the character at
    position 2 - 2 = 0 of the raw text: the widget shows "a". *)
Lemma pasted_letters_displayed :
  displayed 1 generated = Some ""
  ∧ apply_edit (mkEdit 0 0 "ab") "" = ("ab", 2%nat)
  ∧ displayed 1 (input_event 1 "ab" 2 generated) = Some "a"
  ∧ displayed 1 (user_edit 1 (mkEdit 0 0 "ab") generated) = Some "a"
  ∧ ¬ valid_display "a".
Proof.
  split; [by vm_compute|]. split; [by vm_compute|]. split; [by vm_compute|].
  split; [by vm_compute|]. apply not_valid_display_a.
Qed.

Lemma display_after_events_witness :
  grid_ok (grid generated) = true ∧ (1 < 81)%nat
  ∧ (∃ t, displayed 1 (run_events 1 [("ab", 2%nat); ("7x", 2%nat)] generated) = Some t
        ∧ (String.length t ≤ 1)%nat)
  ∧ (∃ t, displayed 1 (run_edits 1 [mkEdit 0 0 "7"; mkEdit 1 1 "x"; mkEdit 0 1 ""]
                         generated) = Some t
        ∧ valid_display t).
Proof.
  assert (grid_ok (grid generated) = true) as Hok by (vm_compute; reflexivity).
  assert (1 < 81)%nat as Hk by lia.
  assert (displayed 1 generated = Some "") as Hd by (vm_compute; reflexivity).
  assert (Forall keystroke [mkEdit 0 0 "7"; mkEdit 1 1 "x"; mkEdit 0 1 ""]) as Hks
    by (repeat constructor; unfold keystroke; simpl; lia).
  destruct (display_after_events generated 1 Hok Hk) as [Hlen Hvalid].
  split; [exact Hok|]. split; [exact Hk|]. split.
  - apply Hlen. discriminate.
  - exact (Hvalid _ "" Hd (or_introl eq_refl) Hks).
Defined.

(** C3 as stated fails. Widget 1 shows "7". With "ab" pasted before the
    "7" the raw text is "ab7" (length 3) with the caret at 2; "b" is
    rejected and the widget then shows "b", the character at position
    3 - 2 = 1, not "7". With the "7" deleted the raw text is empty
    (length 0); the event is rejected and the widget shows nothing,
    not "7". *)
Lemma rejected_edit_not_restored :
  displayed 1 typed7 = Some "7"
  ∧ (apply_edit (mkEdit 0 0 "ab") "7" = ("ab7", 2%nat)
     ∧ rejects "ab7" 2
     ∧ displayed 1 (user_edit 1 (mkEdit 0 0 "ab") typed7) = Some "b")
  ∧ (apply_edit (mkEdit 0 1 "") "7" = ("", 0%nat)
     ∧ rejects "" 0
     ∧ displayed 1 (user_edit 1 (mkEdit 0 1 "") typed7) = Some "").
Proof.
  split; [by vm_compute|]. split.
  - split; [by vm_compute|]. split; [by apply rejects_None|by vm_compute].
  - split; [by vm_compute|]. split; [by apply rejects_None|by vm_compute].
Qed.

Lemma rejected_edit_display_witness :
  grid_ok (grid typed7) = true ∧ (1 < 81)%nat
  ∧ displayed 1 (input_event 1 "7x" 2 typed7) = Some "7"
  ∧ displayed 1 (user_edit 1 (mkEdit 0 0 "x") typed7) = Some "7"
  ∧ cells (user_edit 1 (mkEdit 0 0 "x") typed7) = cells typed7.
Proof.
  assert (grid_ok (grid typed7) = true) as Hok by (vm_compute; reflexivity).
  assert (1 < 81)%nat as Hk by lia.
  assert (displayed 1 typed7 = Some "7") as Hd by (vm_compute; reflexivity).
  assert (rejects "7x" 2) as Hr by (apply rejects_None; vm_compute; reflexivity).
  destruct (rejected_edit_display typed7 1 Hok Hk) as (Hrej & _ & Hx).
  split; [exact Hok|]. split; [exact Hk|]. split.
  - rewrite (Hrej "7x" 2%nat Hr). vm_compute. reflexivity.
  - exact (Hx 0%nat Hd).
Defined.

Lemma refreshGrid_sync_witness :
  grid_ok (grid typed7) = true ∧ (1 < 81)%nat
  ∧ ∃ w, grid (refreshGrid typed7) !! 1%nat = Some w
       ∧ value w = "7" ∧ readOnly w = false ∧ "clue" ∉ classList w.
Proof.
  assert (grid_ok (grid typed7) = true) as Hok by (vm_compute; reflexivity).
  assert (1 < 81)%nat as Hk by lia.
  assert (cells typed7 !! 1%nat = Some 7) as Hc by (vm_compute; reflexivity).
  assert (1%nat ∉ clueIndices typed7) as Hout
    by (apply (bool_decide_eq_true_1 _); vm_compute; reflexivity).
  destruct (refreshGrid_sync typed7 1 Hok Hk) as (w & Hw & Hv & _ & Hro & Hcl).
  split; [exact Hok|]. split; [exact Hk|].
  exists w. split; [exact Hw|]. split; [|split].
  - rewrite Hv, Hc. reflexivity.
  - rewrite Hro. by apply bool_decide_eq_false_2.
  - intros Hin. by apply Hout, Hcl.
Defined.

Lemma solvePuzzle_keeps_clues_witness :
  grid_ok (grid typed7) = true ∧ (2 < 81)%nat
  ∧ clueIndices (solvePuzzle typed7) = clueIndices typed7
  ∧ ∃ w, grid (solvePuzzle typed7) !! 2%nat = Some w
       ∧ readOnly w = false ∧ "clue" ∉ classList w.
Proof.
  assert (grid_ok (grid typed7) = true) as Hok by (vm_compute; reflexivity).
  assert (2 < 81)%nat as Hk by lia.
  assert (2%nat ∉ clueIndices typed7) as Hout
    by (apply (bool_decide_eq_true_1 _); vm_compute; reflexivity).
  destruct (solvePuzzle_keeps_clues typed7 2 Hok Hk) as (Hc & _ & Hw).
  split; [exact Hok|]. split; [exact Hk|]. split; [exact Hc|exact (Hw Hout)].
Defined.

Lemma generatePuzzle_order_witness :
  grid_ok (grid start) = true ∧ (0 < 81)%nat
  ∧ (Puzzle_generate (puzzle start) (cells start)).2 !! 0%nat = Some 5
  ∧ cells (generatePuzzle start) = 5 :: replicate 80 0
  ∧ 0%nat ∈ clueIndices (generatePuzzle start)
  ∧ ∃ w, grid (generatePuzzle start) !! 0%nat = Some w
       ∧ value w = "5" ∧ readOnly w = true ∧ "clue" ∈ classList w.
Proof.
  assert (grid_ok (grid start) = true) as Hok by (vm_compute; reflexivity).
  assert (0 < 81)%nat as Hi by lia.
  assert ((Puzzle_generate (puzzle start) (cells start)).2 !! 0%nat = Some 5)
    as Hv by reflexivity.
  destruct (generatePuzzle_order start) as (_ & Hc & Hq & _ & Hw).
  destruct (Hw Hok 0%nat 5 Hi Hv) as (w & Hlook & Hval & Hro & Hcl).
  split; [exact Hok|]. split; [exact Hi|]. split; [exact Hv|].
  split; [exact Hc|]. split.
  { apply Hq. exists 5. split; [exact Hv|discriminate]. }
  exists w. split; [exact Hlook|]. split; [exact Hval|].
  split; [exact Hro|]. apply Hcl. discriminate.
Defined.

Lemma verifyPuzzle_notification_witness :
  Puzzle_verify (puzzle solved) (cells solved) = true
  ∧ Forall (λ x, x ≠ 0) (cells solved)
  ∧ firstChild_textContent (notificationDiv (verifyPuzzle solved))
    = "Congratulations! You solved it."
  ∧ notification_classList (notificationDiv (verifyPuzzle solved))
    = ["visible"; "success"].
Proof.
  assert (Puzzle_verify (puzzle solved) (cells solved) = true) as Hv
    by (vm_compute; reflexivity).
  assert (Forall (λ x, x ≠ 0) (cells solved)) as Hall
    by (apply every_nonzero_spec; vm_compute; reflexivity).
  destruct (verifyPuzzle_notification solved) as (_ & Hsolved & _).
  split; [exact Hv|]. split; [exact Hall|exact (Hsolved Hv Hall)].
Defined.

Lemma no_edit_writes_zero_witness :
  grid_ok (grid typed7) = true ∧ (1 < 81)%nat
  ∧ cells typed7 !! 1%nat = Some 7
  ∧ cells (input_event 1 "" 0 typed7) !! 1%nat = Some 7
  ∧ displayed 1 (input_event 1 "" 0 typed7) = Some ""
  ∧ displayed 1 (refreshGrid (input_event 1 "" 0 typed7)) = Some "7".
Proof.
  assert (grid_ok (grid typed7) = true) as Hok by (vm_compute; reflexivity).
  assert (1 < 81)%nat as Hk by lia.
  assert (cells typed7 !! 1%nat = Some 7) as Hc by (vm_compute; reflexivity).
  destruct (no_edit_writes_zero typed7 1 Hok Hk) as [_ Hclear].
  split; [exact Hok|]. split; [exact Hk|]. split; [exact Hc|].
  apply (Hclear 0%nat 7 Hc). discriminate.
Defined.

End Session.

(** * The input handler, further *)

Section HandlerEdges.

Context {Puzzle : Type} `{!PuzzleEngine Puzzle}.

Implicit Types (s : Page Puzzle) (w : HTMLInputElement).

(** The code unit of the decimal digit [d]. *)
Lemma String_of_digit_char (d : Z) :
  1 ≤ d ≤ 9 →
  JS.String_of (Some d) = String (ascii_of_N (Z.to_N (48 + d))) "".
Proof.
  intros Hd.
  destruct (digit_cases d Hd) as [->|[->|[->|[->|[->|[->|[->|[->| ->]]]]]]]]; done.
Qed.



Lemma length_append (a b : string) :
  String.length (a +:+ b) = (String.length a + String.length b)%nat.
Proof. induction a as [|c a IH]; simpl; [done|]. by rewrite <- IH. Qed.

Lemma substring_last (a : string) (c : ascii) :
  String.substring (String.length a) 1 (a +:+ String c "") = String c "".
Proof. induction a as [|x a IH]; [done|]. exact IH. Qed.

(** X2. With the caret at position 0 the handler does not read an
    absent character: [substr(-1, 1)] wraps around, and the character
    examined is the last one of the raw text. *)
Theorem caret_zero_reads_last_char (a : string) (c : ascii) :
  JS.substr (a +:+ String c "") (Z.of_nat 0 - 1) 1 = String c ""
  ∧ extracted (a +:+ String c "") 0 = JS.parseInt (String c "").
Proof.
  assert (JS.substr (a +:+ String c "") (Z.of_nat 0 - 1) 1 = String c "") as Hs.
  { unfold JS.substr, JS.str_length. rewrite length_append. simpl String.length.
    cbv zeta. change (Z.of_nat 0 - 1) with (-1). change (-1 <? 0) with true.
    cbv iota.
    replace (Z.to_nat (Z.max (Z.of_nat (String.length a + 1) + -1) 0))
      with (String.length a) by lia.
    match goal with |- String.substring _ ?m _ = _ =>
      replace m with 1%nat by lia end.
    apply substring_last. }
  split; [done|]. unfold extracted. by rewrite Hs.
Qed.

(** The shape of the page after any input event on an existing widget:
    the widget keeps everything but its text and caret, and the board
    is as before or has one cell set to a digit from 1 to 9. *)
Lemma input_event_shape s (target : nat) w (raw : string) (cursor : nat) :
  grid s !! target = Some w →
  ∃ (t : string) (cur : nat) (c' : list Z),
    input_event target raw cursor s
    = with_cells c' (with_grid (<[target := set_raw t cur w]> (grid s)) s)
    ∧ (c' = cells s ∨ ∃ (i : nat) d, 1 ≤ d ≤ 9 ∧ c' = <[i := d]> (cells s)).
Proof.
  intros Hw. pose proof (lookup_lt_Some _ _ _ Hw) as Hlt.
  unfold input_event. rewrite Hw. destruct (oninput w) as [[]|].
  2:{ exists raw, cursor, (cells s). split; [done|by left]. }
  unfold updateCell. simpl grid. rewrite list_lookup_insert_eq by done.
  simpl value. simpl selectionStart. fold (extracted raw cursor).
  destruct (negb (JS.Number_isInteger (extracted raw cursor))
            || JS.lt (extracted raw cursor) 1 || JS.gt (extracted raw cursor) 9)
    eqn:Hguard.
  - fold (restored raw cursor). simpl grid. rewrite list_insert_insert_eq.
    eexists (restored raw cursor), _, (cells s). split; [reflexivity|by left].
  - apply guard_accepts in Hguard as (d & Hex & Hd). rewrite Hex.
    simpl grid. rewrite list_insert_insert_eq. simpl cells. simpl value.
    simpl dataset_index. rewrite Number_of_String_of by lia.
    eexists (JS.String_of (Some d)), _, _. split; [reflexivity|].
    unfold JS.typed_set. destruct (JS.Number_of_opt (dataset_index w)) as [z|];
      [|by left].
    destruct (0 <=? z); [|by left]. right. exists (Z.to_nat z), d.
    split; [done|]. unfold JS.ToUint8. by rewrite Z.mod_small by lia.
Qed.

(** X3. An input event on one widget leaves every other widget, the
    clue set, the engine state, the notification, the timers and the
    buttons as they were, and keeps the number of widgets and of board
    cells. The widget itself keeps its classes, read-only flag, board
    index, handler and type; the board changes in at most one cell, and
    then to a digit from 1 to 9. *)
Theorem input_event_frame s (target : nat) (raw : string) (cursor : nat) :
  let s' := input_event target raw cursor s in
  (puzzle s' = puzzle s ∧ clueIndices s' = clueIndices s
   ∧ notificationDiv s' = notificationDiv s ∧ timers s' = timers s
   ∧ generateButton_onclick s' = generateButton_onclick s
   ∧ verifyButton_onclick s' = verifyButton_onclick s
   ∧ solveButton_onclick s' = solveButton_onclick s)
  ∧ length (grid s') = length (grid s)
  ∧ length (cells s') = length (cells s)
  ∧ (∀ j : nat, j ≠ target → grid s' !! j = grid s !! j)
  ∧ (∀ w, grid s !! target = Some w →
       ∃ w', grid s' !! target = Some w'
           ∧ classList w' = classList w ∧ readOnly w' = readOnly w
           ∧ dataset_index w' = dataset_index w ∧ oninput w' = oninput w
           ∧ type_ w' = type_ w ∧ inputMode w' = inputMode w)
  ∧ (cells s' = cells s
     ∨ ∃ (i : nat) d, 1 ≤ d ≤ 9 ∧ cells s' = <[i := d]> (cells s)).
Proof.
  cbv zeta. destruct (grid s !! target) as [w|] eqn:Hw.
  - destruct (input_event_shape s target w raw cursor Hw)
      as (t & cur & c' & -> & Hc). simpl.
    split; [done|]. split; [by rewrite length_insert|]. split.
    { destruct Hc as [->|(i & d & _ & ->)]; [done|by rewrite length_insert]. }
    split; [intros j Hj; by rewrite list_lookup_insert_ne|]. split; [|done].
    intros w0 [= <-]. exists (set_raw t cur w).
    split; [|done]. apply list_lookup_insert_eq. by eapply lookup_lt_Some.
  - unfold input_event. rewrite Hw.
    split; [done|]. split; [done|]. split; [done|]. split; [done|].
    split; [done|by left].
Qed.

(** X4. When the widget carries no [data-index], or one that lies past
    the end of the board, an accepted edit still replaces the widget's
    text by the digit, but the write into the board is dropped: the
    board is unchanged. *)
Theorem updateCell_index_out_of_board s (target : nat) w
    (raw : string) (cursor : nat) (d : Z) :
  grid s !! target = Some w → oninput w = Some updateCell_handler →
  (dataset_index w = None
   ∨ ∃ k : nat, dataset_index w = Some (JS.String_of (Some (Z.of_nat k)))
              ∧ (length (cells s) ≤ k)%nat) →
  accepts raw cursor d →
  cells (input_event target raw cursor s) = cells s
  ∧ displayed target (input_event target raw cursor s) = Some (digit_text d).
Proof.
  intros Hw Hon Hidx [Hex Hd]. pose proof (lookup_lt_Some _ _ _ Hw) as Hlt.
  unfold input_event. rewrite Hw, Hon. unfold updateCell. simpl grid.
  rewrite list_lookup_insert_eq by done. simpl value. simpl selectionStart.
  fold (extracted raw cursor).
  assert (negb (JS.Number_isInteger (extracted raw cursor))
          || JS.lt (extracted raw cursor) 1 || JS.gt (extracted raw cursor) 9 = false)
    as -> by (apply guard_accepts; eauto).
  rewrite Hex. simpl grid. rewrite list_insert_insert_eq. simpl cells.
  simpl dataset_index. unfold displayed. simpl grid.
  rewrite list_lookup_insert_eq by done. split; [|done].
  destruct Hidx as [->|(k & -> & Hk)]; [done|].
  unfold JS.Number_of_opt. rewrite Number_of_String_of by lia.
  unfold JS.typed_set. destruct (Z.leb_spec 0 (Z.of_nat k)); [|done].
  rewrite Nat2Z.id. by apply list_insert_ge.
Qed.

(** X5. A rejected event can leave a digit on display that was not
    written to the board. When the raw text is a digit [d] followed by
    a rejected character, with the caret after both (a paste of two
    characters into an empty widget), the widget then shows [d] while
    the board is unchanged, whatever [Board[k]] holds. *)
Theorem rejected_text_shows_unwritten_digit s (k : nat) (d : Z) (c : ascii) :
  grid_ok (grid s) = true → (k < 81)%nat → 1 ≤ d ≤ 9 →
  rejects (digit_text d +:+ String c "") 2 →
  displayed k (input_event k (digit_text d +:+ String c "") 2 s)
  = Some (digit_text d)
  ∧ cells (input_event k (digit_text d +:+ String c "") 2 s) = cells s.
Proof.
  intros Hok Hk Hd Hr. destruct (grid_ok_lookup _ k Hok Hk) as (e & He & Hb).
  split; [|by rewrite (input_event_reject s k e)].
  rewrite (displayed_reject s k e) by done. f_equal.
  unfold digit_text. rewrite (String_of_digit_char d Hd). by vm_compute.
Qed.

End HandlerEdges.

(** * The refresh and the clue set, further *)

Section RefreshEdges.

Context {Puzzle : Type} `{!PuzzleEngine Puzzle}.

Implicit Types (s : Page Puzzle) (w : HTMLInputElement).

Lemma refresh_input_kept (c : list Z) (clues : gset nat) (i : nat) w :
  type_ (refresh_input c clues i w) = type_ w
  ∧ inputMode (refresh_input c clues i w) = inputMode w
  ∧ dataset_index (refresh_input c clues i w) = dataset_index w
  ∧ oninput (refresh_input c clues i w) = oninput w.
Proof. unfold refresh_input. by destruct (decide (i ∈ clues)). Qed.

Lemma refresh_input_tokens (c : list Z) (clues : gset nat) (i : nat) w (t : string) :
  t ≠ "clue" → t ∈ classList (refresh_input c clues i w) ↔ t ∈ classList w.
Proof.
  intros Ht. unfold refresh_input. destruct (decide (i ∈ clues)); simpl.
  - rewrite token_add_elem. split; [by intros [?|?]|by right].
  - rewrite token_remove_elem. split; [by intros [_ ?]|by split].
Qed.

(** The text the refresh assigns follows the widget's [data-index]. *)
Lemma refresh_input_value_index (c : list Z) (clues : gset nat) (i k : nat) w :
  dataset_index w = Some (JS.String_of (Some (Z.of_nat k))) →
  value (refresh_input c clues i w) =
  match c !! k with
  | Some v => if v =? 0 then "" else JS.String_of (Some v)
  | None => ""
  end.
Proof.
  intros Hidx. unfold refresh_input. rewrite Hidx. unfold JS.Number_of_opt.
  rewrite Number_of_String_of by lia. rewrite typed_get_nat.
  by destruct (decide (i ∈ clues)).
Qed.

Lemma matching_from_has_cell (g : list HTMLInputElement) : ∀ (k node : nat),
  node ∈ matching_from k g →
  ∃ e, g !! (node - k)%nat = Some e ∧ has_cell_class e = true.
Proof.
  induction g as [|e g IH]; intros k node; simpl; [by intros ?%elem_of_nil|].
  destruct (has_cell_class e) eqn:He.
  - intros [->|Hin]%elem_of_cons.
    + exists e. by rewrite Nat.sub_diag.
    + pose proof (matching_from_elem _ _ _ Hin) as Hb.
      destruct (IH _ _ Hin) as (e' & He' & Hc). exists e'. split; [|done].
      replace (node - k)%nat with (S (node - S k)) by lia. done.
  - intros Hin. pose proof (matching_from_elem _ _ _ Hin) as Hb.
    destruct (IH _ _ Hin) as (e' & He' & Hc). exists e'. split; [|done].
    replace (node - k)%nat with (S (node - S k)) by lia. done.
Qed.

Lemma refreshGrid_fmap_has_cell s :
  has_cell_class <$> grid (refreshGrid s) = has_cell_class <$> grid s.
Proof.
  apply list_eq. intros node. rewrite !list_lookup_fmap.
  destruct (decide (node ∈ querySelectorAll_cell (grid s))) as [Hin|Hout].
  - apply list_elem_of_lookup_1 in Hin as [j Hj].
    rewrite (refreshGrid_lookup_in s j node Hj).
    destruct (grid s !! node); [simpl|done]. by rewrite refresh_input_has_cell.
  - by rewrite refreshGrid_lookup_out.
Qed.

Lemma refreshGrid_length s : length (grid (refreshGrid s)) = length (grid s).
Proof.
  rewrite <- (length_fmap has_cell_class (grid (refreshGrid s))).
  by rewrite refreshGrid_fmap_has_cell, length_fmap.
Qed.

(** X6. Whatever the page, the full refresh changes nothing but the
    text, caret, read-only flag and "clue" class of widgets: the board,
    the clue set, the engine state, the notification, the timers and
    the buttons are as before, no widget is added or removed, every
    widget keeps its type, input mode, board index, handler and every
    class other than "clue", and a widget without the class "cell" is
    not touched at all. *)
Theorem refreshGrid_changes_only_widgets s :
  let s' := refreshGrid s in
  (puzzle s' = puzzle s ∧ cells s' = cells s ∧ clueIndices s' = clueIndices s
   ∧ notificationDiv s' = notificationDiv s ∧ timers s' = timers s
   ∧ generateButton_onclick s' = generateButton_onclick s
   ∧ verifyButton_onclick s' = verifyButton_onclick s
   ∧ solveButton_onclick s' = solveButton_onclick s)
  ∧ length (grid s') = length (grid s)
  ∧ (∀ (node : nat) w, grid s !! node = Some w →
       ∃ w', grid s' !! node = Some w'
           ∧ type_ w' = type_ w ∧ inputMode w' = inputMode w
           ∧ dataset_index w' = dataset_index w ∧ oninput w' = oninput w
           ∧ (∀ t : string, t ≠ "clue" → t ∈ classList w' ↔ t ∈ classList w)
           ∧ ("cell" ∉ classList w → w' = w)).
Proof.
  cbv zeta. split; [by rewrite refreshGrid_frame|].
  split; [apply refreshGrid_length|]. intros node w Hw.
  destruct (decide (node ∈ querySelectorAll_cell (grid s))) as [Hin|Hout].
  - pose proof (matching_from_has_cell _ _ _ Hin) as (e & He & Hc).
    rewrite Nat.sub_0_r, Hw in He. injection He as <-.
    apply list_elem_of_lookup_1 in Hin as [j Hj].
    exists (refresh_input (cells s) (clueIndices s) j w).
    split; [by rewrite (refreshGrid_lookup_in s j node Hj), Hw|].
    destruct (refresh_input_kept (cells s) (clueIndices s) j w)
      as (Ht & Hm & Hd & Ho).
    split; [done|]. split; [done|]. split; [done|]. split; [done|]. split.
    + intros t Ht'. by apply refresh_input_tokens.
    + intros Hno. by apply bool_decide_eq_true_1 in Hc.
  - exists w. split; [by rewrite refreshGrid_lookup_out|]. done.
Qed.

(** X7. The refresh takes a widget's text from the board cell named by
    the widget's own [data-index], but its read-only flag and clue
    marker from the widget's position among the selected widgets: for
    the [j]-th selected widget with board index [k], the text shows
    [Board[k]] and the flags say whether [j] is a clue. *)
Theorem refreshGrid_index_and_position s (j node k : nat) w :
  querySelectorAll_cell (grid s) !! j = Some node →
  grid s !! node = Some w →
  dataset_index w = Some (JS.String_of (Some (Z.of_nat k))) →
  ∃ w', grid (refreshGrid s) !! node = Some w'
      ∧ value w' = match cells s !! k with
                   | Some v => if v =? 0 then "" else JS.String_of (Some v)
                   | None => ""
                   end
      ∧ readOnly w' = bool_decide (j ∈ clueIndices s)
      ∧ ("clue" ∈ classList w' ↔ j ∈ clueIndices s).
Proof.
  intros Hj Hw Hidx. exists (refresh_input (cells s) (clueIndices s) j w).
  split; [by rewrite (refreshGrid_lookup_in s j node Hj), Hw|].
  split; [by apply refresh_input_value_index|].
  split; [apply refresh_input_readOnly|apply refresh_input_clue].
Qed.

(** The list [initializeClues] turns into the clue set, for a board
    whose first cell has index [k]: it has one entry per non-zero cell,
    no entry twice, and only indices of the board. *)
Lemma clue_list_spec (c : list Z) : ∀ k : nat,
  let l := omap id (filter (λ x, x ≠ None)
             (imap (λ index x, if x =? 0 then None else Some (k + index)%nat) c)) in
  length l = length (filter (λ v, v ≠ 0) c)
  ∧ NoDup l
  ∧ ∀ i : nat, i ∈ l → (k ≤ i < k + length c)%nat.
Proof.
  induction c as [|x c IH]; intros k; cbv zeta.
  { simpl. split; [done|]. split; [constructor|]. by intros i ?%elem_of_nil. }
  rewrite imap_cons.
  rewrite (imap_ext _ (λ index x, if x =? 0 then None else Some (S k + index)%nat))
    by (intros i y _; simpl; destruct (y =? 0); [done|f_equal; lia]).
  destruct (IH (S k)) as (Hlen & Hnd & Hb). cbv zeta in *. cbn beta.
  destruct (Z.eqb_spec x 0) as [->|Hx].
  - rewrite filter_cons_False by (intros Hn; by apply Hn).
    rewrite (filter_cons_False _ 0) by (intros Hn; by apply Hn).
    split; [done|]. split; [done|]. intros i Hi%Hb. simpl. lia.
  - rewrite filter_cons_True by done. rewrite (filter_cons_True _ x) by done.
    set (l := omap id (filter (λ x, x ≠ None)
                (imap (λ index x, if x =? 0 then None else Some (S k + index)%nat) c)))
      in *.
    change (length (k + 0 :: l)%nat = S (length (filter (λ v, v ≠ 0) c))
            ∧ NoDup (k + 0 :: l)%nat
            ∧ ∀ i : nat, i ∈ (k + 0 :: l)%nat → (k ≤ i < k + S (length c))%nat).
    rewrite Nat.add_0_r. split; [simpl; by rewrite Hlen|]. split.
    + constructor; [|done]. intros Hin%Hb. lia.
    + intros i [->|Hi%Hb]%elem_of_cons; lia.
Qed.

(** X8. The clue set [initializeClues] builds has exactly as many
    elements as the board has non-zero cells, holds only indices of the
    board, and computing it again on the same board gives the same
    page. *)
Theorem initializeClues_count s :
  size (clueIndices (initializeClues s)) = length (filter (λ v, v ≠ 0) (cells s))
  ∧ (∀ i : nat, i ∈ clueIndices (initializeClues s) → (i < length (cells s))%nat)
  ∧ initializeClues (initializeClues s) = initializeClues s.
Proof.
  destruct (clue_list_spec (cells s) 0) as (Hlen & Hnd & Hb). cbv zeta in *.
  unfold initializeClues. simpl clueIndices. simpl cells. split; [|split].
  - rewrite size_list_to_set by done. exact Hlen.
  - intros i Hi%elem_of_list_to_set. apply Hb in Hi. lia.
  - reflexivity.
Qed.

End RefreshEdges.

(** * Start-up and the actions, further *)

Section ActionEdges.

Context {Puzzle : Type} `{!PuzzleEngine Puzzle}.

Implicit Types (s : Page Puzzle) (w : HTMLInputElement).

Lemma initializeGrid_unfold s :
  grid s = [] →
  ∃ s0, initializeGrid s = refreshGrid s0
      ∧ grid s0 = new_cell <$> seq 0 81
      ∧ grid_ok (grid s0) = true
      ∧ s0 = with_grid (grid s0) s.
Proof.
  intros Hg. exists (foldl (λ s i, appendChild (new_cell i) s) s (seq 0 81)).
  assert (grid (foldl (λ s i, appendChild (new_cell i) s) s (seq 0 81))
          = new_cell <$> seq 0 81) as Hgrid by by rewrite append_cells_grid, Hg.
  split; [done|]. split; [done|]. split; [rewrite Hgrid; by vm_compute|].
  generalize (seq 0 81). intros l. revert s Hg Hgrid. clear.
  induction l as [|i l IH] using rev_ind; intros s Hg _; simpl.
  - by rewrite with_grid_id.
  - rewrite foldl_app. simpl. unfold appendChild at 1 3.
    by rewrite (IH s Hg) by by rewrite append_cells_grid, Hg.
Qed.

(** X9. On a document whose grid element is empty, [initializeGrid]
    creates exactly 81 widgets. Widget [i] carries the class "cell",
    the type "text" and the input mode "numeric"; its [data-index]
    reads back as the number [i]; its input handler is [updateCell];
    and the refresh that ends [initializeGrid] has already given it the
    text of [Board[i]] and the flag of the clue set. The board and the
    clue set are not changed. *)
Theorem initializeGrid_widgets s (i : nat) :
  grid s = [] → (i < 81)%nat →
  length (grid (initializeGrid s)) = 81%nat
  ∧ cells (initializeGrid s) = cells s
  ∧ clueIndices (initializeGrid s) = clueIndices s
  ∧ ∃ w, grid (initializeGrid s) !! i = Some w
       ∧ "cell" ∈ classList w ∧ type_ w = "text" ∧ inputMode w = "numeric"
       ∧ JS.Number_of_opt (dataset_index w) = Some (Z.of_nat i)
       ∧ oninput w = Some updateCell_handler
       ∧ value w = match cells s !! i with
                   | Some v => if v =? 0 then "" else JS.String_of (Some v)
                   | None => ""
                   end
       ∧ readOnly w = bool_decide (i ∈ clueIndices s).
Proof.
  intros Hg Hi. destruct (initializeGrid_unfold s Hg) as (s0 & -> & Hg0 & Hok & Hs0).
  assert (cells s0 = cells s ∧ clueIndices s0 = clueIndices s) as [Hc Hq]
    by (by rewrite Hs0).
  split; [by rewrite refreshGrid_length, Hg0, length_fmap, length_seq|].
  split; [by rewrite refreshGrid_cells|].
  split; [by rewrite refreshGrid_clueIndices|].
  assert (grid s0 !! i = Some (new_cell i)) as Hw.
  { rewrite Hg0, list_lookup_fmap, lookup_seq_lt by done. done. }
  exists (refresh_input (cells s0) (clueIndices s0) i (new_cell i)).
  split; [by rewrite refreshGrid_lookup, Hw|].
  destruct (refresh_input_kept (cells s0) (clueIndices s0) i (new_cell i))
    as (Ht & Hm & Hd & Ho).
  split.
  { apply refresh_input_tokens; [done|].
    change (classList (new_cell i)) with ["cell"]. by apply list_elem_of_singleton. }
  split; [by rewrite Ht|]. split; [by rewrite Hm|]. split.
  { rewrite Hd. simpl. apply Number_of_String_of. lia. }
  split; [by rewrite Ho|]. split.
  - rewrite (refresh_input_value_index _ _ i i) by done. by rewrite Hc.
  - by rewrite refresh_input_readOnly, Hq.
Qed.

(** X10. After the generate action on the grid of the running page,
    widget [i] shows the digit of the generated board and is read-only
    with the clue marker when that cell is non-zero, and is empty,
    editable and unmarked when the cell is zero. *)
Theorem generatePuzzle_widgets s (i : nat) (v : Z) :
  grid_ok (grid s) = true → (i < 81)%nat →
  (Puzzle_generate (puzzle s) (cells s)).2 !! i = Some v →
  ∃ w, grid (generatePuzzle s) !! i = Some w
     ∧ (v ≠ 0 → value w = JS.String_of (Some v) ∧ readOnly w = true
                 ∧ "clue" ∈ classList w)
     ∧ (v = 0 → value w = "" ∧ readOnly w = false ∧ "clue" ∉ classList w).
Proof.
  intros Hok Hi Hv. unfold generatePuzzle.
  set (s1 := with_engine (Puzzle_generate (puzzle s) (cells s)) s) in *.
  destruct (grid_ok_lookup _ i Hok Hi) as (e & He & Hb).
  set (s2 := initializeClues s1).
  assert (i ∈ clueIndices s2 ↔ v ≠ 0) as Hclue.
  { unfold s2. rewrite initializeClues_spec. change (cells s1 !! i) with
      ((Puzzle_generate (puzzle s) (cells s)).2 !! i). rewrite Hv.
    split; [by intros (? & [= <-] & ?)|intros; by exists v]. }
  exists (refresh_input (cells s2) (clueIndices s2) i e). split.
  { rewrite refreshGrid_lookup by done. change (grid s2) with (grid s).
    by rewrite He. }
  rewrite (refresh_input_bound_value _ _ i i) by done.
  change (cells s2 !! i) with ((Puzzle_generate (puzzle s) (cells s)).2 !! i).
  rewrite Hv, refresh_input_readOnly, refresh_input_clue. split.
  - intros Hnz. destruct (Z.eqb_spec v 0); [done|]. split; [done|].
    split; [by apply bool_decide_eq_true_2, Hclue|by apply Hclue].
  - intros ->. split; [done|].
    split; [apply bool_decide_eq_false_2|]; intros Hin%Hclue; by apply Hin.
Qed.

(** X11. Solve after Generate: widget [i] then shows the solved board,
    while its read-only flag still tells whether the generated board,
    the one before the solve, had a non-zero cell at [i]. *)
Theorem solve_after_generate s (i : nat) (v v' : Z) :
  grid_ok (grid s) = true → (i < 81)%nat →
  cells (generatePuzzle s) !! i = Some v →
  cells (solvePuzzle (generatePuzzle s)) !! i = Some v' →
  ∃ w, grid (solvePuzzle (generatePuzzle s)) !! i = Some w
     ∧ value w = (if v' =? 0 then "" else JS.String_of (Some v'))
     ∧ readOnly w = bool_decide (v ≠ 0).
Proof.
  intros Hok Hi Hv Hv'.
  assert (i ∈ clueIndices (generatePuzzle s) ↔ v ≠ 0) as Hclue.
  { unfold generatePuzzle in *. rewrite refreshGrid_clueIndices.
    rewrite refreshGrid_cells in Hv. rewrite initializeClues_spec.
    change (cells (initializeClues ?x)) with (cells x) in Hv. rewrite Hv.
    split; [by intros (? & [= <-] & ?)|intros; by exists v]. }
  assert (grid_ok (grid (generatePuzzle s)) = true) as Hok'
    by (unfold generatePuzzle; by apply refreshGrid_grid_ok).
  revert Hv'. generalize dependent (generatePuzzle s). intros g _ Hclue Hok'.
  unfold solvePuzzle. set (g1 := with_engine (Puzzle_solve (puzzle g) (cells g)) g).
  rewrite refreshGrid_cells. intros Hv'.
  destruct (grid_ok_lookup _ i Hok' Hi) as (e & He & Hb).
  exists (refresh_input (cells g1) (clueIndices g1) i e). split.
  { rewrite refreshGrid_lookup by done. change (grid g1) with (grid g).
    by rewrite He. }
  rewrite (refresh_input_bound_value _ _ i i) by done.
  rewrite Hv', refresh_input_readOnly. split; [done|].
  apply bool_decide_ext. exact Hclue.
Qed.

Lemma verifyPuzzle_shape s :
  ∃ n, verifyPuzzle s = setTimeout clear_notification_className 2500
                          (with_notification n s).
Proof.
  unfold verifyPuzzle. destruct (Puzzle_verify (puzzle s) (cells s)); [|by eexists].
  destruct (forallb (λ x, negb (x =? 0)) (cells s)); by eexists.
Qed.

(** X12. The notification the verify action shows does not depend on
    what the notification element held before (no class of an earlier
    notification survives), verifying twice shows the same notification
    as verifying once, and each call queues one more dismissal without
    removing an earlier one. *)
Theorem verifyPuzzle_notification_fresh s (n : NotificationDiv) :
  notificationDiv (verifyPuzzle (with_notification n s))
  = notificationDiv (verifyPuzzle s)
  ∧ notificationDiv (verifyPuzzle (verifyPuzzle s))
    = notificationDiv (verifyPuzzle s)
  ∧ timers (verifyPuzzle (verifyPuzzle s))
    = timers s ++ [(clear_notification_className, 2500);
                   (clear_notification_className, 2500)].
Proof.
  split; [|split].
  - unfold verifyPuzzle. simpl puzzle. simpl cells.
    destruct (Puzzle_verify (puzzle s) (cells s)); [|done].
    by destruct (forallb (λ x, negb (x =? 0)) (cells s)).
  - destruct (verifyPuzzle_shape s) as [n1 Hs1]. rewrite Hs1 at 1.
    unfold verifyPuzzle at 1. simpl puzzle. simpl cells.
    unfold verifyPuzzle.
    destruct (Puzzle_verify (puzzle s) (cells s)); [|done].
    by destruct (forallb (λ x, negb (x =? 0)) (cells s)).
  - destruct (verifyPuzzle_shape s) as [n1 Hs1].
    destruct (verifyPuzzle_shape (verifyPuzzle s)) as [n2 Hs2].
    rewrite Hs2. simpl. rewrite Hs1. simpl. by rewrite <- app_assoc.
Qed.

End ActionEdges.

(** * Invariants of a session *)

Section SessionInvariants.

Context {Puzzle : Type} `{!PuzzleEngine Puzzle}.

Implicit Types (s : Page Puzzle) (w : HTMLInputElement).

Lemma board_ok_spec (c : list Z) :
  board_ok c = true ↔ length c = 81%nat ∧ Forall (λ v, 0 ≤ v ≤ 9) c.
Proof.
  unfold board_ok. rewrite andb_true_iff, Nat.eqb_eq.
  assert (forallb (λ v, (0 <=? v) && (v <=? 9)) c = true
          ↔ Forall (λ v, 0 ≤ v ≤ 9) c) as ->; [|done].
  induction c as [|x c IH]; simpl; [by split|].
  rewrite !andb_true_iff, Forall_cons, IH, Z.leb_le, Z.leb_le. done.
Qed.

(** ** What each operation keeps *)

Lemma input_event_none s (target : nat) (raw : string) (cursor : nat) :
  grid s !! target = None → input_event target raw cursor s = s.
Proof. intros Hn. unfold input_event. by rewrite Hn. Qed.

Lemma input_event_board_ok s (target : nat) (raw : string) (cursor : nat) :
  board_ok (cells s) = true →
  board_ok (cells (input_event target raw cursor s)) = true.
Proof.
  intros Hb. destruct (grid s !! target) as [w|] eqn:Hw.
  - destruct (input_event_shape s target w raw cursor Hw)
      as (t & cur & c' & -> & [->|(i & d & Hd & ->)]); [done|]. simpl.
    apply board_ok_spec in Hb as [Hlen Hall]. apply board_ok_spec.
    split; [by rewrite length_insert|].
    apply Forall_insert; [done|lia].
  - by rewrite input_event_none.
Qed.

Lemma user_edit_board_ok s (target : nat) (e : Edit) :
  board_ok (cells s) = true → board_ok (cells (user_edit target e s)) = true.
Proof.
  intros Hb. unfold user_edit. destruct (grid s !! target) as [w|]; [|done].
  destruct (readOnly w); [done|].
  destruct (apply_edit e (value w)) as [raw cursor]. by apply input_event_board_ok.
Qed.

Lemma input_event_flags_ok s (target : nat) (raw : string) (cursor : nat) :
  flags_ok s → flags_ok (input_event target raw cursor s).
Proof.
  intros Hf. destruct (grid s !! target) as [w|] eqn:Hw.
  - destruct (input_event_shape s target w raw cursor Hw)
      as (t & cur & c' & -> & _).
    intros i x Hx. simpl in Hx. simpl clueIndices.
    destruct (decide (target = i)) as [<-|Hne].
    + rewrite list_lookup_insert_eq in Hx by by eapply lookup_lt_Some.
      injection Hx as <-. by apply (Hf target w).
    + rewrite list_lookup_insert_ne in Hx by done. by apply Hf.
  - by rewrite input_event_none.
Qed.

Lemma user_edit_flags_ok s (target : nat) (e : Edit) :
  flags_ok s → flags_ok (user_edit target e s).
Proof.
  intros Hf. unfold user_edit. destruct (grid s !! target) as [w|]; [|done].
  destruct (readOnly w); [done|].
  destruct (apply_edit e (value w)) as [raw cursor]. by apply input_event_flags_ok.
Qed.

Lemma refreshGrid_flags_ok s :
  grid_ok (grid s) = true → flags_ok (refreshGrid s).
Proof.
  intros Hok i x Hx. rewrite refreshGrid_lookup in Hx by done.
  destruct (grid s !! i) as [w|]; [|done]. injection Hx as <-.
  rewrite refreshGrid_clueIndices.
  split; [apply refresh_input_readOnly|apply refresh_input_clue].
Qed.

Lemma refreshGrid_shows_board s :
  grid_ok (grid s) = true → board_ok (cells s) = true →
  shows_board (refreshGrid s).
Proof.
  intros Hok [_ Hall]%board_ok_spec k x Hx.
  pose proof Hok as [_ Hb]%grid_ok_spec.
  rewrite refreshGrid_lookup in Hx by done.
  destruct (grid s !! k) as [w|] eqn:Hw; [|done]. injection Hx as <-.
  rewrite refreshGrid_cells, (refresh_input_bound_value _ _ k k) by eauto.
  destruct (cells s !! k) as [v|] eqn:Hv; [|by left].
  destruct (Z.eqb_spec v 0) as [->|Hnz]; [by left|]. right. exists v.
  split; [done|]. split; [|done].
  pose proof (proj1 (Forall_lookup _ _) Hall k v Hv). simpl in *. lia.
Qed.

Lemma verifyPuzzle_kept s :
  puzzle (verifyPuzzle s) = puzzle s ∧ cells (verifyPuzzle s) = cells s
  ∧ clueIndices (verifyPuzzle s) = clueIndices s
  ∧ grid (verifyPuzzle s) = grid s
  ∧ generateButton_onclick (verifyPuzzle s) = generateButton_onclick s
  ∧ verifyButton_onclick (verifyPuzzle s) = verifyButton_onclick s
  ∧ solveButton_onclick (verifyPuzzle s) = solveButton_onclick s.
Proof. by destruct (verifyPuzzle_shape s) as [n ->]. Qed.

Lemma fire_timer_kept s :
  puzzle (fire_timer s) = puzzle s ∧ cells (fire_timer s) = cells s
  ∧ clueIndices (fire_timer s) = clueIndices s
  ∧ grid (fire_timer s) = grid s
  ∧ generateButton_onclick (fire_timer s) = generateButton_onclick s
  ∧ verifyButton_onclick (fire_timer s) = verifyButton_onclick s
  ∧ solveButton_onclick (fire_timer s) = solveButton_onclick s.
Proof.
  unfold fire_timer. destruct (timers s) as [|[cb delay] rest]; [done|].
  by destruct cb.
Qed.

Lemma generatePuzzle_kept s :
  cells (generatePuzzle s) = (Puzzle_generate (puzzle s) (cells s)).2
  ∧ generateButton_onclick (generatePuzzle s) = generateButton_onclick s
  ∧ verifyButton_onclick (generatePuzzle s) = verifyButton_onclick s
  ∧ solveButton_onclick (generatePuzzle s) = solveButton_onclick s.
Proof. unfold generatePuzzle. by rewrite refreshGrid_frame. Qed.

Lemma solvePuzzle_kept s :
  cells (solvePuzzle s) = (Puzzle_solve (puzzle s) (cells s)).2
  ∧ generateButton_onclick (solvePuzzle s) = generateButton_onclick s
  ∧ verifyButton_onclick (solvePuzzle s) = verifyButton_onclick s
  ∧ solveButton_onclick (solvePuzzle s) = solveButton_onclick s.
Proof. unfold solvePuzzle. by rewrite refreshGrid_frame. Qed.

Lemma input_event_buttons s (target : nat) (raw : string) (cursor : nat) :
  generateButton_onclick (input_event target raw cursor s) = generateButton_onclick s
  ∧ verifyButton_onclick (input_event target raw cursor s) = verifyButton_onclick s
  ∧ solveButton_onclick (input_event target raw cursor s) = solveButton_onclick s.
Proof.
  destruct (grid s !! target) as [w|] eqn:Hw.
  - by destruct (input_event_shape s target w raw cursor Hw)
      as (t & cur & c' & -> & _).
  - by rewrite input_event_none.
Qed.

Lemma user_edit_buttons s (target : nat) (e : Edit) :
  generateButton_onclick (user_edit target e s) = generateButton_onclick s
  ∧ verifyButton_onclick (user_edit target e s) = verifyButton_onclick s
  ∧ solveButton_onclick (user_edit target e s) = solveButton_onclick s.
Proof.
  unfold user_edit. destruct (grid s !! target) as [w|]; [|done].
  destruct (readOnly w); [done|].
  destruct (apply_edit e (value w)) as [raw cursor]. apply input_event_buttons.
Qed.

Lemma flags_ok_ext s s' :
  grid s' = grid s → clueIndices s' = clueIndices s → flags_ok s → flags_ok s'.
Proof. unfold flags_ok. intros -> ->. done. Qed.

Lemma shows_board_ext s s' :
  grid s' = grid s → cells s' = cells s → shows_board s → shows_board s'.
Proof. unfold shows_board. intros -> ->. done. Qed.

Lemma user_edit_shows_board s (k : nat) (e : Edit) :
  grid_ok (grid s) = true → board_ok (cells s) = true → keystroke e →
  shows_board s → shows_board (user_edit k e s).
Proof.
  intros Hok Hb Hkey Hs. unfold user_edit.
  destruct (grid s !! k) as [w|] eqn:Hw; [|done].
  destruct (readOnly w); [done|].
  pose proof Hok as [Hlen Hbound]%grid_ok_spec.
  pose proof Hb as [Hclen _]%board_ok_spec.
  pose proof (lookup_lt_Some _ _ _ Hw) as Hk.
  assert (String.length (value w) ≤ 1)%nat as Hold.
  { destruct (Hs k w Hw) as [->|(v & _ & Hv & ->)]; [simpl; lia|].
    rewrite String_of_digit_length; lia. }
  pose proof (keystroke_restored (value w) e Hold Hkey) as Hres.
  destruct (apply_edit e (value w)) as [raw cursor]. cbn [fst snd] in Hres.
  destruct (accepts_or_rejects raw cursor) as [[d Hd]|Hr].
  - rewrite (input_event_accept s k w raw cursor d) by eauto.
    intros j x Hx. simpl in Hx. simpl cells.
    destruct (decide (k = j)) as [<-|Hne].
    + rewrite list_lookup_insert_eq in Hx by done. injection Hx as <-.
      right. exists d. rewrite list_lookup_insert_eq by lia.
      by destruct Hd as [_ Hd].
    + rewrite list_lookup_insert_ne in Hx by done.
      rewrite list_lookup_insert_ne by done. by apply Hs.
  - rewrite (input_event_reject s k w raw cursor) by eauto.
    intros j x Hx. simpl in Hx. simpl cells.
    destruct (decide (k = j)) as [<-|Hne].
    + rewrite list_lookup_insert_eq in Hx by done. injection Hx as <-.
      simpl value. destruct Hres as [->| ->]; [by left|by apply Hs].
    + rewrite list_lookup_insert_ne in Hx by done. by apply Hs.
Qed.

(** ** The page after start-up *)

Lemma main_unfold (doc : Page Puzzle) :
  grid doc = [] →
  ∃ s0, main doc = initializeOptions (refreshGrid s0)
      ∧ grid_ok (grid s0) = true
      ∧ grid s0 = new_cell <$> seq 0 81
      ∧ puzzle s0 = (Puzzle_new).1 ∧ cells s0 = (Puzzle_new).2
      ∧ (∀ j : nat, j ∈ clueIndices s0 ↔ ∃ v, (Puzzle_new).2 !! j = Some v ∧ v ≠ 0)
      ∧ notificationDiv s0 = notificationDiv doc ∧ timers s0 = timers doc.
Proof.
  intros Hg. unfold main. cbv zeta.
  set (s1 := initializeClues (with_engine Puzzle_new doc)).
  assert (grid s1 = []) as Hg1 by (unfold s1; by rewrite initializeClues_grid).
  destruct (initializeGrid_unfold s1 Hg1) as (s0 & -> & Hg0 & Hok & Hs0).
  exists s0. split; [done|]. split; [done|]. split; [done|].
  rewrite Hs0. simpl. split; [done|]. split; [done|]. split; [|done].
  intros j. apply (initializeClues_spec (with_engine Puzzle_new doc)).
Qed.

Lemma initializeOptions_buttons s :
  generateButton_onclick (initializeOptions s) = Some generatePuzzle_handler
  ∧ verifyButton_onclick (initializeOptions s) = Some verifyPuzzle_handler
  ∧ solveButton_onclick (initializeOptions s) = Some solvePuzzle_handler.
Proof. done. Qed.

Lemma initializeOptions_kept s :
  puzzle (initializeOptions s) = puzzle s ∧ cells (initializeOptions s) = cells s
  ∧ clueIndices (initializeOptions s) = clueIndices s
  ∧ notificationDiv (initializeOptions s) = notificationDiv s
  ∧ timers (initializeOptions s) = timers s.
Proof. done. Qed.

(** X13. Once the script has run on a document with an empty grid: the
    board is the engine's initial buffer, the clue set holds exactly
    its non-zero positions (so it is empty for an all-zero buffer),
    the three buttons carry their handlers, the notification and the
    timers are untouched, and widget [i], for every [i] from 0 to 80,
    already shows [Board[i]] with the flag of the clue set: the clue
    set is computed before the grid is built and refreshed. *)
Theorem main_startup (doc : Page Puzzle) (i : nat) :
  grid doc = [] → (i < 81)%nat →
  let s := main doc in
  puzzle s = (Puzzle_new).1 ∧ cells s = (Puzzle_new).2
  ∧ (∀ j : nat, j ∈ clueIndices s ↔ ∃ v, (Puzzle_new).2 !! j = Some v ∧ v ≠ 0)
  ∧ (Forall (λ v, v = 0) (Puzzle_new).2 → clueIndices s = ∅)
  ∧ (generateButton_onclick s = Some generatePuzzle_handler
     ∧ verifyButton_onclick s = Some verifyPuzzle_handler
     ∧ solveButton_onclick s = Some solvePuzzle_handler)
  ∧ notificationDiv s = notificationDiv doc ∧ timers s = timers doc
  ∧ length (grid s) = 81%nat
  ∧ ∃ w, grid s !! i = Some w
       ∧ value w = match (Puzzle_new).2 !! i with
                   | Some v => if v =? 0 then "" else JS.String_of (Some v)
                   | None => ""
                   end
       ∧ readOnly w = bool_decide (i ∈ clueIndices s).
Proof.
  intros Hg Hi. cbv zeta.
  destruct (main_unfold doc Hg)
    as (s0 & -> & Hok & Hg0 & Hp & Hc & Hq & Hn & Ht).
  destruct (initializeOptions_kept (refreshGrid s0)) as (-> & -> & -> & -> & ->).
  rewrite initializeOptions_grid.
  assert (puzzle (refreshGrid s0) = puzzle s0
          ∧ notificationDiv (refreshGrid s0) = notificationDiv s0
          ∧ timers (refreshGrid s0) = timers s0) as (-> & -> & ->)
    by (by rewrite refreshGrid_frame).
  rewrite refreshGrid_cells, refreshGrid_clueIndices.
  split; [done|]. split; [done|]. split; [done|]. split.
  { intros Hall. apply set_eq. intros j. rewrite Hq. split; [|set_solver].
    intros (v & Hv & Hnz). exfalso. apply Hnz.
    by apply (proj1 (Forall_lookup _ _) Hall j v). }
  split; [done|]. split; [done|]. split; [done|].
  split; [by rewrite refreshGrid_length, Hg0, length_fmap, length_seq|].
  destruct (grid_ok_lookup _ i Hok Hi) as (e & He & Hb).
  exists (refresh_input (cells s0) (clueIndices s0) i e).
  split; [by rewrite refreshGrid_lookup, He|].
  rewrite (refresh_input_bound_value _ _ i i), refresh_input_readOnly by done.
  by rewrite Hc.
Qed.

Lemma main_invariants (doc : Page Puzzle) :
  grid doc = [] →
  cells (main doc) = (Puzzle_new).2
  ∧ flags_ok (main doc)
  ∧ (board_ok (Puzzle_new).2 = true → shows_board (main doc))
  ∧ generateButton_onclick (main doc) = Some generatePuzzle_handler
  ∧ verifyButton_onclick (main doc) = Some verifyPuzzle_handler
  ∧ solveButton_onclick (main doc) = Some solvePuzzle_handler.
Proof.
  intros Hg. destruct (main_unfold doc Hg)
    as (s0 & -> & Hok & Hg0 & Hp & Hc & Hq & Hn & Ht).
  destruct (initializeOptions_kept (refreshGrid s0)) as (_ & Hc' & Hq' & _ & _).
  split; [by rewrite Hc', refreshGrid_cells|]. split; [|split; [|done]].
  - eapply flags_ok_ext; [apply initializeOptions_grid|done|].
    by apply refreshGrid_flags_ok.
  - intros Hb. eapply shows_board_ext; [apply initializeOptions_grid|done|].
    apply refreshGrid_shows_board; [done|by rewrite Hc].
Qed.

(** ** One event *)

Lemma handle_board_ok s (ev : Event) :
  engine_ok Puzzle → board_ok (cells s) = true →
  board_ok (cells (handle ev s)) = true.
Proof.
  intros (_ & Hgen & Hsol) Hb.
  destruct ev as [target raw cursor|target e|b|]; simpl.
  - by apply input_event_board_ok.
  - by apply user_edit_board_ok.
  - destruct (onclick b s) as [[| |]|]; simpl; [| | |done].
    + destruct (generatePuzzle_kept s) as [-> _]. by apply Hgen.
    + by destruct (verifyPuzzle_kept s) as (_ & -> & _).
    + destruct (solvePuzzle_kept s) as [-> _]. by apply Hsol.
  - by destruct (fire_timer_kept s) as (_ & -> & _).
Qed.

Lemma handle_flags_ok s (ev : Event) :
  grid_ok (grid s) = true → flags_ok s → flags_ok (handle ev s).
Proof.
  intros Hok Hf. destruct ev as [target raw cursor|target e|b|]; simpl.
  - by apply input_event_flags_ok.
  - by apply user_edit_flags_ok.
  - destruct (onclick b s) as [[| |]|]; simpl; [| | |done].
    + unfold generatePuzzle. by apply refreshGrid_flags_ok.
    + destruct (verifyPuzzle_kept s) as (_ & _ & Hq & Hg & _).
      by apply (flags_ok_ext s).
    + unfold solvePuzzle. by apply refreshGrid_flags_ok.
  - destruct (fire_timer_kept s) as (_ & _ & Hq & Hg & _).
    by apply (flags_ok_ext s).
Qed.

Lemma handle_shows_board s (ev : Event) :
  engine_ok Puzzle → typed_event ev →
  grid_ok (grid s) = true → board_ok (cells s) = true →
  shows_board s → shows_board (handle ev s).
Proof.
  intros (_ & Hgen & Hsol) Hev Hok Hb Hs.
  destruct ev as [target raw cursor|target e|b|]; simpl; [done| | |].
  - by apply user_edit_shows_board.
  - destruct (onclick b s) as [[| |]|]; simpl; [| | |done].
    + unfold generatePuzzle. apply refreshGrid_shows_board; [done|].
      by apply Hgen.
    + destruct (verifyPuzzle_kept s) as (_ & Hc & _ & Hg & _).
      by apply (shows_board_ext s).
    + unfold solvePuzzle. apply refreshGrid_shows_board; [done|].
      by apply Hsol.
  - destruct (fire_timer_kept s) as (_ & Hc & _ & Hg & _).
    by apply (shows_board_ext s).
Qed.

Lemma handle_buttons s (ev : Event) :
  generateButton_onclick (handle ev s) = generateButton_onclick s
  ∧ verifyButton_onclick (handle ev s) = verifyButton_onclick s
  ∧ solveButton_onclick (handle ev s) = solveButton_onclick s.
Proof.
  destruct ev as [target raw cursor|target e|b|]; simpl.
  - apply input_event_buttons.
  - apply user_edit_buttons.
  - destruct (onclick b s) as [[| |]|]; simpl; [| | |done].
    + by destruct (generatePuzzle_kept s) as (_ & -> & -> & ->).
    + by destruct (verifyPuzzle_kept s) as (_ & _ & _ & _ & -> & -> & ->).
    + by destruct (solvePuzzle_kept s) as (_ & -> & -> & ->).
  - by destruct (fire_timer_kept s) as (_ & _ & _ & _ & -> & -> & ->).
Qed.

Lemma typed_session_reachable (doc : Page Puzzle) s :
  typed_session doc s → reachable doc s.
Proof. induction 1; by constructor. Qed.

Lemma reachable_flags_ok (doc : Page Puzzle) s :
  grid doc = [] → reachable doc s → flags_ok s.
Proof.
  intros Hg Hreach. induction Hreach as [|s ev Hreach IH].
  - by apply main_invariants.
  - apply handle_flags_ok; [by eapply reachable_grid_ok|done].
Qed.

Lemma reachable_board_ok (doc : Page Puzzle) s :
  engine_ok Puzzle → grid doc = [] → reachable doc s →
  board_ok (cells s) = true.
Proof.
  intros Heng Hg Hreach. induction Hreach as [|s ev Hreach IH].
  - destruct (main_invariants doc Hg) as (-> & _). by destruct Heng.
  - by apply handle_board_ok.
Qed.

(** ** The session *)

(** X14. With an engine that keeps its buffer at 81 cells from 0 to 9,
    the board of every page of a session (any input events, edits,
    clicks and timers) has 81 cells from 0 to 9: the handler itself
    only ever stores a digit from 1 to 9. *)
Theorem session_board_in_range (doc : Page Puzzle) s :
  engine_ok Puzzle → grid doc = [] → reachable doc s →
  length (cells s) = 81%nat ∧ ∀ (i : nat) v, cells s !! i = Some v → 0 ≤ v ≤ 9.
Proof.
  intros Heng Hg Hreach.
  pose proof (reachable_board_ok doc s Heng Hg Hreach) as [Hlen Hall]%board_ok_spec.
  split; [done|]. intros i v Hv. by apply (proj1 (Forall_lookup _ _) Hall i v).
Qed.

(** X15. In every page of a session, whatever the engine does, each
    widget's read-only flag and clue marker say exactly whether its
    position is in the clue set: only a refresh sets them, and every
    change of the clue set is followed by a refresh. *)
Theorem session_flags_follow_clues (doc : Page Puzzle) s (i : nat) w :
  grid doc = [] → reachable doc s → grid s !! i = Some w →
  readOnly w = bool_decide (i ∈ clueIndices s)
  ∧ ("clue" ∈ classList w ↔ i ∈ clueIndices s).
Proof. intros Hg Hreach Hw. by apply (reachable_flags_ok doc s Hg Hreach). Qed.

(** X16. Clue immutability: in every page of a session, an edit of the
    user on a widget whose position is in the clue set changes nothing,
    neither the board nor any widget (the widget is read-only, so the
    browser applies no edit and dispatches no event). *)
Theorem clue_widgets_take_no_edit (doc : Page Puzzle) s (i : nat) (e : Edit) :
  grid doc = [] → reachable doc s → i ∈ clueIndices s →
  user_edit i e s = s.
Proof.
  intros Hg Hreach Hi. unfold user_edit.
  destruct (grid s !! i) as [w|] eqn:Hw; [|done].
  destruct (reachable_flags_ok doc s Hg Hreach i w Hw) as [-> _].
  by rewrite bool_decide_eq_true_2.
Qed.

(** X17. With an engine that keeps its buffer in range, in every page
    of a session whose edits are keystrokes (typing, typing over a
    selection, Backspace, Delete), each widget is empty or shows
    exactly the digit of its own board cell, a digit from 1 to 9: the
    display never disagrees with the board. *)
Theorem typed_session_shows_board (doc : Page Puzzle) s (k : nat) w :
  engine_ok Puzzle → grid doc = [] → typed_session doc s →
  grid s !! k = Some w →
  value w = ""
  ∨ ∃ v, cells s !! k = Some v ∧ 1 ≤ v ≤ 9 ∧ value w = JS.String_of (Some v).
Proof.
  intros Heng Hg Hsess. revert k w.
  change (shows_board s). induction Hsess as [|s ev Hsess IH Hev].
  - apply main_invariants; [done|]. by destruct Heng.
  - pose proof (typed_session_reachable _ _ Hsess) as Hreach.
    apply handle_shows_board; [done..| | |done].
    + by eapply reachable_grid_ok.
    + by eapply reachable_board_ok.
Qed.

(** X18. The handlers [initializeOptions] stores in the three buttons
    stay there for the whole session, so a click on Generate, Verify or
    Solve always runs [generatePuzzle], [verifyPuzzle] or
    [solvePuzzle]. *)
Theorem buttons_stay_wired (doc : Page Puzzle) s :
  reachable doc s →
  handle (ClickEvent generateButton) s = generatePuzzle s
  ∧ handle (ClickEvent verifyButton) s = verifyPuzzle s
  ∧ handle (ClickEvent solveButton) s = solvePuzzle s.
Proof.
  intros Hreach.
  assert (generateButton_onclick s = Some generatePuzzle_handler
          ∧ verifyButton_onclick s = Some verifyPuzzle_handler
          ∧ solveButton_onclick s = Some solvePuzzle_handler) as (Hgb & Hvb & Hsb).
  { induction Hreach as [|s ev Hreach IH].
    - unfold main. cbv zeta. apply initializeOptions_buttons.
    - destruct (handle_buttons s ev) as (-> & -> & ->). done. }
  simpl. by rewrite Hgb, Hvb, Hsb.
Qed.

(** ** Clue widgets *)

Lemma refreshGrid_clues_synced s :
  grid_ok (grid s) = true → clues_synced (refreshGrid s).
Proof.
  intros Hok i x _ Hx. pose proof Hok as [_ Hb]%grid_ok_spec.
  rewrite refreshGrid_lookup in Hx by done.
  destruct (grid s !! i) as [w|] eqn:Hw; [|done]. injection Hx as <-.
  rewrite refreshGrid_cells. apply refresh_input_bound_value. eauto.
Qed.

Lemma clues_synced_ext s s' :
  grid s' = grid s → cells s' = cells s → clueIndices s' = clueIndices s →
  clues_synced s → clues_synced s'.
Proof. unfold clues_synced. intros -> -> ->. done. Qed.

Lemma user_edit_clues_synced s (k : nat) (e : Edit) :
  grid_ok (grid s) = true → flags_ok s →
  clues_synced s → clues_synced (user_edit k e s).
Proof.
  intros Hok Hf Hs. unfold user_edit.
  destruct (grid s !! k) as [w|] eqn:Hw; [|done].
  destruct (readOnly w) eqn:Hro; [done|].
  assert (k ∉ clueIndices s) as Hk.
  { destruct (Hf k w Hw) as [Hr _]. rewrite Hro in Hr.
    symmetry in Hr. by apply bool_decide_eq_false_1 in Hr. }
  pose proof Hok as [_ Hbound]%grid_ok_spec.
  destruct (apply_edit e (value w)) as [raw cursor].
  destruct (accepts_or_rejects raw cursor) as [[d Hd]|Hr].
  - rewrite (input_event_accept s k w raw cursor d) by eauto.
    intros i x Hi Hx. simpl in *.
    assert (k ≠ i) as Hne by (by intros ->).
    rewrite list_lookup_insert_ne in Hx by done.
    rewrite list_lookup_insert_ne by done. by apply Hs.
  - rewrite (input_event_reject s k w raw cursor) by eauto.
    intros i x Hi Hx. simpl in *.
    assert (k ≠ i) as Hne by (by intros ->).
    rewrite list_lookup_insert_ne in Hx by done. by apply Hs.
Qed.

Lemma handle_clues_synced s (ev : Event) :
  typed_event ev → grid_ok (grid s) = true → flags_ok s →
  clues_synced s → clues_synced (handle ev s).
Proof.
  intros Hev Hok Hf Hs.
  destruct ev as [target raw cursor|target e|b|]; simpl; [done| | |].
  - by apply user_edit_clues_synced.
  - destruct (onclick b s) as [[| |]|]; simpl; [| | |done].
    + unfold generatePuzzle. by apply refreshGrid_clues_synced.
    + destruct (verifyPuzzle_kept s) as (_ & Hc & Hq & Hg & _).
      by apply (clues_synced_ext s).
    + unfold solvePuzzle. by apply refreshGrid_clues_synced.
  - destruct (fire_timer_kept s) as (_ & Hc & Hq & Hg & _).
    by apply (clues_synced_ext s).
Qed.

(** X19. In every page of a session whose edits are keystrokes, and
    whatever the engine does, a widget at a clue position shows exactly
    its board cell: the digit of [Board[i]], or nothing when the engine
    left 0 there. *)
Theorem typed_session_clues_synced (doc : Page Puzzle) s (i : nat) w :
  grid doc = [] → typed_session doc s →
  i ∈ clueIndices s → grid s !! i = Some w →
  value w = match cells s !! i with
            | Some v => if v =? 0 then "" else JS.String_of (Some v)
            | None => ""
            end.
Proof.
  intros Hg Hsess. revert i w. change (clues_synced s).
  induction Hsess as [|s ev Hsess IH Hev].
  - destruct (main_unfold doc Hg) as (s0 & -> & Hok & _).
    destruct (initializeOptions_kept (refreshGrid s0)) as (_ & Hc & Hq & _).
    eapply clues_synced_ext; [apply initializeOptions_grid|done..|].
    by apply refreshGrid_clues_synced.
  - pose proof (typed_session_reachable _ _ Hsess) as Hreach.
    apply handle_clues_synced; [done| | |done].
    + by eapply reachable_grid_ok.
    + by eapply reachable_flags_ok.
Qed.

(** X20. The widgets are created once: every page of a session has
    exactly 81 widgets, and widget [k] still carries the class "cell",
    the [data-index] that reads back as [k], and the input handler. *)
Theorem session_widgets_fixed (doc : Page Puzzle) s (k : nat) :
  grid doc = [] → reachable doc s → (k < 81)%nat →
  length (grid s) = 81%nat
  ∧ ∃ w, grid s !! k = Some w
       ∧ "cell" ∈ classList w
       ∧ JS.Number_of_opt (dataset_index w) = Some (Z.of_nat k)
       ∧ oninput w = Some updateCell_handler.
Proof.
  intros Hg Hreach Hk. pose proof (reachable_grid_ok doc s Hg Hreach) as Hok.
  pose proof Hok as [Hlen _]%grid_ok_spec. split; [done|].
  destruct (grid_ok_lookup _ k Hok Hk) as (w & Hw & (Hc & Hidx & Hon)%bound_spec).
  exists w. split; [done|]. split; [done|]. split; [|done].
  rewrite Hidx. simpl. apply Number_of_String_of. lia.
Qed.

End SessionInvariants.

(** * The scripted session, further *)

Section SessionEdges.

Import Scripted.

Lemma scripted_engine_ok : engine_ok unit.
Proof.
  split; [by vm_compute|]. split; [intros; by vm_compute|].
  intros p c [Hlen Hall]%board_ok_spec. apply board_ok_spec. simpl.
  split; [by rewrite length_fmap|].
  apply Forall_fmap. eapply Forall_impl; [exact Hall|].
  intros x Hx. simpl in *. destruct (Z.eqb_spec x 0); lia.
Qed.

Lemma session1_reachable : reachable blank session1.
Proof. unfold session1. apply reachable_handle, reachable_handle, reachable_main. Qed.

Lemma session1_typed : typed_session blank session1.
Proof.
  unfold session1. apply typed_handle; [apply typed_handle; [apply typed_main|done]|].
  unfold typed_event, keystroke. simpl. lia.
Qed.

Lemma updateCell_index_out_of_board_witness :
  grid unbound !! 0%nat
  = Some (set_oninput updateCell_handler (classList_add "cell" createElement_input))
  ∧ accepts "7" 1 7
  ∧ cells (input_event 0 "7" 1 unbound) = cells unbound
  ∧ displayed 0 (input_event 0 "7" 1 unbound) = Some "7".
Proof.
  assert (accepts "7" 1 7) as Ha by (split; [by vm_compute|lia]).
  split; [reflexivity|]. split; [exact Ha|].
  exact (updateCell_index_out_of_board unbound 0 _ "7" 1 7
           eq_refl eq_refl (or_introl eq_refl) Ha).
Defined.

Lemma refreshGrid_index_and_position_witness :
  querySelectorAll_cell (grid swapped) !! 0%nat = Some 0%nat
  ∧ grid swapped !! 0%nat = Some (new_cell 1)
  ∧ ∃ w', grid (refreshGrid swapped) !! 0%nat = Some w'
        ∧ value w' = "" ∧ readOnly w' = true.
Proof.
  split; [by vm_compute|]. split; [reflexivity|].
  destruct (refreshGrid_index_and_position swapped 0 0 1 (new_cell 1))
    as (w' & Hw & Hv & Hro & _); [by vm_compute|reflexivity|reflexivity|].
  exists w'. split; [exact Hw|]. split; [exact Hv|].
  rewrite Hro. by vm_compute.
Defined.

Lemma initializeGrid_widgets_witness :
  grid blank = [] ∧ (80 < 81)%nat
  ∧ length (grid (initializeGrid blank)) = 81%nat
  ∧ ∃ w, grid (initializeGrid blank) !! 80%nat = Some w
       ∧ JS.Number_of_opt (dataset_index w) = Some 80
       ∧ oninput w = Some updateCell_handler.
Proof.
  assert (80 < 81)%nat as Hi by lia.
  destruct (initializeGrid_widgets blank 80 eq_refl Hi)
    as (Hlen & _ & _ & w & Hw & _ & _ & _ & Hidx & Hon & _).
  split; [reflexivity|]. split; [exact Hi|]. split; [exact Hlen|].
  exists w. split; [exact Hw|]. split; [exact Hidx|exact Hon].
Defined.

Lemma generatePuzzle_widgets_witness :
  grid_ok (grid start) = true ∧ (0 < 81)%nat
  ∧ (Puzzle_generate (puzzle start) (cells start)).2 !! 0%nat = Some 5
  ∧ ∃ w, grid (generatePuzzle start) !! 0%nat = Some w
       ∧ value w = "5" ∧ readOnly w = true ∧ "clue" ∈ classList w.
Proof.
  assert (grid_ok (grid start) = true) as Hok by (vm_compute; reflexivity).
  assert (0 < 81)%nat as Hi by lia.
  assert ((Puzzle_generate (puzzle start) (cells start)).2 !! 0%nat = Some 5)
    as Hv by reflexivity.
  destruct (generatePuzzle_widgets start 0 5 Hok Hi Hv) as (w & Hw & Hnz & _).
  split; [exact Hok|]. split; [exact Hi|]. split; [exact Hv|].
  exists w. split; [exact Hw|]. apply Hnz. discriminate.
Defined.

Lemma solve_after_generate_witness :
  grid_ok (grid start) = true ∧ (1 < 81)%nat
  ∧ cells (generatePuzzle start) !! 1%nat = Some 0
  ∧ cells (solvePuzzle (generatePuzzle start)) !! 1%nat = Some 1
  ∧ ∃ w, grid (solvePuzzle (generatePuzzle start)) !! 1%nat = Some w
       ∧ value w = "1" ∧ readOnly w = false.
Proof.
  assert (grid_ok (grid start) = true) as Hok by (vm_compute; reflexivity).
  assert (1 < 81)%nat as Hi by lia.
  assert (cells (generatePuzzle start) !! 1%nat = Some 0) as Hv
    by (vm_compute; reflexivity).
  assert (cells (solvePuzzle (generatePuzzle start)) !! 1%nat = Some 1) as Hv'
    by (vm_compute; reflexivity).
  destruct (solve_after_generate start 1 0 1 Hok Hi Hv Hv') as (w & Hw & Hval & Hro).
  split; [exact Hok|]. split; [exact Hi|]. split; [exact Hv|]. split; [exact Hv'|].
  exists w. split; [exact Hw|]. split; [exact Hval|exact Hro].
Defined.

Lemma main_startup_witness :
  grid blank = [] ∧ (0 < 81)%nat
  ∧ cells (main blank) = replicate 81 0
  ∧ clueIndices (main blank) = ∅
  ∧ length (grid (main blank)) = 81%nat
  ∧ ∃ w, grid (main blank) !! 0%nat = Some w ∧ value w = "".
Proof.
  assert (0 < 81)%nat as Hi by lia.
  assert (Forall (λ v, v = 0) (Puzzle_new (Puzzle := unit)).2) as Hz
    by (apply Forall_replicate; reflexivity).
  destruct (main_startup blank 0 eq_refl Hi)
    as (_ & Hc & _ & Hempty & _ & _ & _ & Hlen & w & Hw & Hv & _).
  split; [reflexivity|]. split; [exact Hi|]. split; [exact Hc|].
  split; [exact (Hempty Hz)|]. split; [exact Hlen|].
  exists w. split; [exact Hw|exact Hv].
Defined.

Lemma session_board_in_range_witness :
  engine_ok unit ∧ grid blank = [] ∧ reachable blank session1
  ∧ length (cells session1) = 81%nat
  ∧ ∀ (i : nat) v, cells session1 !! i = Some v → 0 ≤ v ≤ 9.
Proof.
  split; [exact scripted_engine_ok|]. split; [reflexivity|].
  split; [exact session1_reachable|].
  exact (session_board_in_range blank session1 scripted_engine_ok eq_refl
           session1_reachable).
Defined.

Lemma session_flags_follow_clues_witness :
  grid blank = [] ∧ reachable blank session1
  ∧ ∃ w, grid session1 !! 0%nat = Some w
       ∧ readOnly w = bool_decide (0%nat ∈ clueIndices session1)
       ∧ ("clue" ∈ classList w ↔ 0%nat ∈ clueIndices session1).
Proof.
  split; [reflexivity|]. split; [exact session1_reachable|].
  assert (is_Some (grid session1 !! 0%nat)) as [w Hw] by (vm_compute; eauto).
  exists w. split; [exact Hw|].
  exact (session_flags_follow_clues blank session1 0 w eq_refl
           session1_reachable Hw).
Defined.

Lemma clue_widgets_take_no_edit_witness :
  grid blank = [] ∧ reachable blank session1
  ∧ 0%nat ∈ clueIndices session1
  ∧ user_edit 0 (mkEdit 1 1 "9") session1 = session1.
Proof.
  assert (0%nat ∈ clueIndices session1) as Hin
    by (apply (bool_decide_eq_true_1 _); vm_compute; reflexivity).
  split; [reflexivity|]. split; [exact session1_reachable|]. split; [exact Hin|].
  exact (clue_widgets_take_no_edit blank session1 0 (mkEdit 1 1 "9") eq_refl
           session1_reachable Hin).
Defined.

Lemma typed_session_shows_board_witness :
  engine_ok unit ∧ grid blank = [] ∧ typed_session blank session1
  ∧ ∃ w, grid session1 !! 1%nat = Some w
       ∧ (value w = ""
          ∨ ∃ v, cells session1 !! 1%nat = Some v ∧ 1 ≤ v ≤ 9
               ∧ value w = JS.String_of (Some v)).
Proof.
  split; [exact scripted_engine_ok|]. split; [reflexivity|].
  split; [exact session1_typed|].
  assert (is_Some (grid session1 !! 1%nat)) as [w Hw] by (vm_compute; eauto).
  exists w. split; [exact Hw|].
  exact (typed_session_shows_board blank session1 1 w scripted_engine_ok eq_refl
           session1_typed Hw).
Defined.

Lemma buttons_stay_wired_witness :
  reachable blank session1
  ∧ handle (ClickEvent solveButton) session1 = solvePuzzle session1.
Proof.
  split; [exact session1_reachable|].
  apply (buttons_stay_wired blank session1 session1_reachable).
Defined.

Lemma typed_session_clues_synced_witness :
  grid blank = [] ∧ typed_session blank session1
  ∧ 0%nat ∈ clueIndices session1
  ∧ ∃ w, grid session1 !! 0%nat = Some w ∧ value w = "5".
Proof.
  assert (0%nat ∈ clueIndices session1) as Hin
    by (apply (bool_decide_eq_true_1 _); vm_compute; reflexivity).
  assert (cells session1 !! 0%nat = Some 5) as Hc by (vm_compute; reflexivity).
  split; [reflexivity|]. split; [exact session1_typed|]. split; [exact Hin|].
  assert (is_Some (grid session1 !! 0%nat)) as [w Hw] by (vm_compute; eauto).
  exists w. split; [exact Hw|].
  rewrite (typed_session_clues_synced blank session1 0 w eq_refl
             session1_typed Hin Hw), Hc.
  reflexivity.
Defined.

Lemma session_widgets_fixed_witness :
  grid blank = [] ∧ reachable blank session1 ∧ (80 < 81)%nat
  ∧ length (grid session1) = 81%nat
  ∧ ∃ w, grid session1 !! 80%nat = Some w
       ∧ "cell" ∈ classList w
       ∧ JS.Number_of_opt (dataset_index w) = Some 80
       ∧ oninput w = Some updateCell_handler.
Proof.
  assert (80 < 81)%nat as Hk by lia.
  split; [reflexivity|]. split; [exact session1_reachable|]. split; [exact Hk|].
  exact (session_widgets_fixed blank session1 80 eq_refl session1_reachable Hk).
Defined.

Lemma rejected_text_shows_unwritten_digit_witness :
  grid_ok (grid start) = true ∧ (1 < 81)%nat ∧ 1 ≤ 5 ≤ 9
  ∧ rejects "5x" 2
  ∧ cells start !! 1%nat = Some 0
  ∧ displayed 1 (input_event 1 "5x" 2 start) = Some "5"
  ∧ cells (input_event 1 "5x" 2 start) = cells start.
Proof.
  assert (grid_ok (grid start) = true) as Hok by (vm_compute; reflexivity).
  assert (1 < 81)%nat as Hk by lia.
  assert (1 ≤ 5 ≤ 9) as Hd by lia.
  assert (rejects "5x" 2) as Hr by (apply rejects_None; vm_compute; reflexivity).
  split; [exact Hok|]. split; [exact Hk|]. split; [exact Hd|].
  split; [exact Hr|]. split; [vm_compute; reflexivity|].
  exact (rejected_text_shows_unwritten_digit start 1 5 "x" Hok Hk Hd Hr).
Defined.

End SessionEdges.
